(** * The server list endpoint and the icon validators

    A shallow embedding of [server/views.py] (the [list] action of
    [ServerListViewSet]) and of [server/validators.py], with the properties
    the specification states about them.

    Python values are modelled as follows.
    - [str] is [string]; the characters the code inspects (['.'], ['/'],
      the letters of the accepted extensions) are ASCII, so a byte-wise
      reading of a UTF-8 encoded name agrees with Python's reading by code
      point.
    - [int] is [Z].
    - An optional value ([None] or a value) is [option].
    - A call that may raise returns a [result]: [Ok v] or [Raise e].
    - A Django [QuerySet] is the list of rows the query selects from the
      database at hand; the view only reads, so evaluating each step at
      once gives the rows the lazy query gives when it is finally run.
      The list stands for the selection, not for an order: the view asks
      for none, and the rows reach the response in the order the database
      returns them, which is a parameter of [list]. *)

From Stdlib Require Import ZArith List String Ascii Bool Lia DecimalString.
From Stdlib Require Import Permutation.
Import ListNotations.

Local Open Scope string_scope.
Local Open Scope Z_scope.

(** ** Results and exceptions *)

Inductive result (E A : Type) : Type :=
| Ok (a : A)
| Raise (e : E).

Arguments Ok {E A} a.
Arguments Raise {E A} e.

Definition bind {E A B : Type} (m : result E A) (k : A -> result E B)
  : result E B :=
  match m with
  | Ok a => k a
  | Raise e => Raise e
  end.

Notation "x <- m ;; k" := (bind m (fun x => k))
  (at level 61, m at next level, right associativity).

(** ** Python builtins on strings *)

Module Py.

(** Truth value of an optional [str]: [None] and [""] are false. *)
Definition truthy (v : option string) : bool :=
  match v with
  | Some s => negb (String.eqb s "")
  | None => false
  end.

(** [v == lit] for an optional [str] [v]. *)
Definition eq_str (v : option string) (lit : string) : bool :=
  match v with
  | Some s => String.eqb s lit
  | None => false
  end.

(** [p[:n]] and [p[n:]] for [0 <= n]. *)
Fixpoint take (n : nat) (p : string) : string :=
  match n, p with
  | S n', String c p' => String c (take n' p')
  | _, _ => ""
  end.

Fixpoint drop (n : nat) (p : string) : string :=
  match n, p with
  | S n', String _ p' => drop n' p'
  | _, _ => p
  end.

(** [p.rfind(c)]: the highest index holding [c], or [-1]. [i] is the index
    of the head of [p], [last] the highest index found so far. *)
Fixpoint rfind_from (c : ascii) (p : string) (i last : Z) : Z :=
  match p with
  | EmptyString => last
  | String a p' => rfind_from c p' (i + 1) (if Ascii.eqb a c then i else last)
  end.

Definition rfind (c : ascii) (p : string) : Z := rfind_from c p 0 (-1).

(** [c.lower()] and [s.lower()]. Only ['A'..'Z'] change; a character outside
    ASCII never lower-cases to one of the ASCII letters of the accepted
    extensions, so membership in that list is decided as Python decides
    it. *)
Definition lower_char (c : ascii) : ascii :=
  let n := nat_of_ascii c in
  if ((65 <=? n) && (n <=? 90))%nat then ascii_of_nat (n + 32) else c.

Fixpoint lower (s : string) : string :=
  match s with
  | EmptyString => EmptyString
  | String c s' => String (lower_char c) (lower s')
  end.

(** [c in s] for a character [c]. *)
Fixpoint has_char (c : ascii) (s : string) : bool :=
  match s with
  | EmptyString => false
  | String a s' => Ascii.eqb a c || has_char c s'
  end.

(** [sub in s]. *)
Fixpoint contains (sub s : string) : bool :=
  prefix sub s ||
  match s with
  | EmptyString => false
  | String _ s' => contains sub s'
  end.

(** [str(n)] for an [int]. *)
Definition str_of_int (n : Z) : string := NilZero.string_of_int (Z.to_int n).

(** An instance of [int(s)] on ASCII text: blanks around, an optional sign,
    decimal digits with single underscores between them. [None] stands for
    [ValueError]. The view is stated over any such function; this one runs
    the examples. *)
Definition is_space (c : ascii) : bool :=
  let n := nat_of_ascii c in
  (((9 <=? n) && (n <=? 13)) || (n =? 32) || ((28 <=? n) && (n <=? 31)))%nat.

Definition digit_of (c : ascii) : option Z :=
  let n := nat_of_ascii c in
  if ((48 <=? n) && (n <=? 57))%nat then Some (Z.of_nat (n - 48)) else None.

Fixpoint all_space (s : string) : bool :=
  match s with
  | EmptyString => true
  | String c s' => is_space c && all_space s'
  end.

Fixpoint lstrip (s : string) : string :=
  match s with
  | EmptyString => EmptyString
  | String c s' => if is_space c then lstrip s' else s
  end.

Fixpoint digits (s : string) (acc : Z) (after_digit : bool) : option Z :=
  match s with
  | EmptyString => if after_digit then Some acc else None
  | String c s' =>
      match digit_of c with
      | Some d => digits s' (10 * acc + d) true
      | None =>
          if Ascii.eqb c "_" && after_digit then digits s' acc false
          else if is_space c && after_digit && all_space s' then Some acc
          else None
      end
  end.

Definition int (s : string) : option Z :=
  match lstrip s with
  | String "-" s' => option_map Z.opp (digits s' 0 false)
  | String "+" s' => digits s' 0 false
  | s' => digits s' 0 false
  end.

End Py.

(** ** [server/validators.py] *)

Module validators.

(** An uploaded file as the validators see it: its [name], and the pixel
    [size] = (width, height) that [PIL.Image.open] decodes from its content,
    [None] when PIL cannot identify an image in it. *)
Record File : Type := {
  name : string;
  size : option (Z * Z)
}.

(** [bool(image)] for a Django file: [bool(self.name)]; no file is [None]. *)
Definition supplied (image : option File) : bool :=
  match image with
  | Some f => Py.truthy (Some (name f))
  | None => false
  end.

Inductive Exception : Type :=
| ValidationError (message : string)
| UnidentifiedImageError.

(** [repr] of the tuple [img.size], as the f-string formats it. *)
Definition repr_size (w h : Z) : string :=
  "(" ++ Py.str_of_int w ++ ", " ++ Py.str_of_int h ++ ")".

(** The f-string of line 12. *)
Definition size_message (width height : Z) : string :=
  "THe maximum allowed dimentions for the image are 70*70 - size of image you uploaded:"
  ++ repr_size width height.

Definition validate_icon_image_size (image : option File)
  : result Exception unit :=
  if supplied image then
    match image with
    | Some f =>
        match size f with
        | Some (width, height) =>
            if (width >? 70) || (height >? 70) then
              Raise (ValidationError (size_message width height))
            else Ok tt
        | None => Raise UnidentifiedImageError
        end
    | None => Ok tt
    end
  else Ok tt.

(** [posixpath.splitext]: [sep = '/'], no [altsep], [extsep = '.']. *)
Definition sep : ascii := "/".
Definition extsep : ascii := ".".

(** The loop [while filenameIndex < dotIndex] of [_splitext], run for
    [n = dotIndex - filenameIndex] rounds: [true] when it runs to its end
    (only dots from [filenameIndex] up to [dotIndex]), [false] when it
    returns from inside at a character that is not a dot. *)
Fixpoint only_leading_dots (p : string) (filenameIndex n : nat) : bool :=
  match n with
  | O => true
  | S n' =>
      match get filenameIndex p with
      | Some c =>
          if Ascii.eqb c extsep
          then only_leading_dots p (S filenameIndex) n'
          else false
      | None => false
      end
  end.

Definition splitext (p : string) : string * string :=
  let sepIndex := Py.rfind sep p in
  let dotIndex := Py.rfind extsep p in
  if dotIndex >? sepIndex then
    let filenameIndex := sepIndex + 1 in
    if only_leading_dots p (Z.to_nat filenameIndex)
         (Z.to_nat (dotIndex - filenameIndex))
    then (p, "")
    else (Py.take (Z.to_nat dotIndex) p, Py.drop (Z.to_nat dotIndex) p)
  else (p, "").

Definition valid_exts : list string :=
  [".jpg"; ".jpeg"; ".png"; ".gif"; ".webp"].

(** [x in valid_exts]. *)
Definition in_exts (x : string) : bool := existsb (String.eqb x) valid_exts.

Definition validate_image_file_exstention (value : File)
  : result Exception unit :=
  let ext := snd (splitext (name value)) in
  if negb (in_exts (Py.lower ext)) then
    Raise (ValidationError "Unsupported file exstention")
  else Ok tt.

(** The extension in the specification's words: the portion of the name
    from its last ['.'] on (the accepted extensions carry the dot), empty
    when the name has no ['.']. *)
Definition after_last_dot (p : string) : string :=
  let dotIndex := Py.rfind extsep p in
  if dotIndex <? 0 then "" else Py.drop (Z.to_nat dotIndex) p.

(** The extension check in the specification's words. *)
Definition accepts_after_last_dot (p : string) : bool :=
  in_exts (Py.lower (after_last_dot p)).

(** Some character other than ['.'] stands before the last ['.'], within
    the final path component. *)
Definition has_stem (p : string) : Prop :=
  exists (i : Z) (c : ascii),
    Py.rfind sep p < i < Py.rfind extsep p /\
    get (Z.to_nat i) p = Some c /\ c <> extsep.

End validators.

(** ** The data the view reads *)

Module models.

(** Modelled from the spec: the [Category] model ([server/models.py] is not
    among the sources). Section 3: a name, used as a filter key. *)
Record Category : Type := {
  category_name : string
}.

(** Modelled from the spec: the [Server] model ([server/models.py] is not
    among the sources). Section 3: an integer identifier, a name, a relation
    to a Category and a many-to-many relation to Users, which the view
    calls [member] and which is held here as the list of the members' user
    identifiers (the relation holds a user at most once per server). *)
Record Server : Type := {
  server_id : Z;
  server_name : string;
  server_category : Category;
  server_member : list Z
}.

End models.

(** ** The query operations the view calls *)

Module orm.
Import models.

(** One row of a query over [Server]: the instance, the rows of the
    [member] relation the query joins to it, and the [num_members]
    annotation once it is requested.

    [filter] and [annotate] do not commute in Django (documentation,
    Aggregation, Order of annotate() and filter() clauses): an annotation
    is computed over the state of the query up to the point where it is
    requested, so a filter on a multi-valued relation that precedes the
    annotation constrains the objects the aggregate counts. The query
    builder reuses the join that [filter(member=user_id)] made and
    narrowed when [Count("member")] asks for the relation afterwards.
    [joined_member] is that join: all the member rows of the server at
    first, the rows that name [user_id] after the filter. *)
Record Row : Type := {
  instance : Server;
  joined_member : list Z;
  num_members : option Z
}.

(** The rows a query selects. The list is the selection, written in the
    order of the table for definiteness; a query of the view has no
    [ORDER BY], and the order in which its rows come back belongs to the
    database ([db_order] in [views]). *)
Definition QuerySet : Type := list Row.

(** [Server.objects.all()] *)
Definition all (objects : list Server) : QuerySet :=
  map (fun s => {| instance := s;
                   joined_member := server_member s;
                   num_members := None |}) objects.

(** [.filter(category__name=category)]: the rows selected; in what order
    the database returns them is [db_order]'s matter, not this list's. *)
Definition filter_category__name (category : string) (qs : QuerySet)
  : QuerySet :=
  filter (fun r => String.eqb (category_name (server_category (instance r)))
                              category) qs.

(** [.filter(member=user_id)]: the servers joined to a member row that
    names [user_id], each with the join narrowed to those rows. As for
    every filter, the list is the selection and fixes no order of
    return. *)
Definition filter_member (user_id : Z) (qs : QuerySet) : QuerySet :=
  map (fun r => {| instance := instance r;
                   joined_member := filter (Z.eqb user_id) (joined_member r);
                   num_members := num_members r |})
      (filter (fun r => existsb (Z.eqb user_id) (joined_member r)) qs).

(** [.annotate(num_members=Count("member"))]: the count of the joined
    member rows, per server. *)
Definition annotate_num_members (qs : QuerySet) : QuerySet :=
  map (fun r => {| instance := instance r;
                   joined_member := joined_member r;
                   num_members :=
                     Some (Z.of_nat (List.length (joined_member r))) |}) qs.

(** [.filter(id=n)], once the lookup value is an integer. *)
Definition filter_id (n : Z) (qs : QuerySet) : QuerySet :=
  filter (fun r => server_id (instance r) =? n) qs.

(** [.exists()] *)
Definition exists_ (qs : QuerySet) : bool :=
  match qs with
  | [] => false
  | _ :: _ => true
  end.

End orm.

(** ** The serializer *)

Module serializer.
Import models orm.

Inductive JSON : Type :=
| JInt (n : Z)
| JStr (s : string)
| JNull.

(** A serialized record: the keys in order, each with its value. *)
Definition JSONObject : Type := list (string * JSON).

Definition has_key (key : string) (o : JSONObject) : bool :=
  existsb (fun kv => String.eqb (fst kv) key) o.

Fixpoint lookup (key : string) (o : JSONObject) : option JSON :=
  match o with
  | [] => None
  | (k, v) :: o' => if String.eqb k key then Some v else lookup key o'
  end.

(** Modelled from the spec: [ServerSerializer] ([server/serializer.py] is
    not among the sources). Section 4.1, Output: a record holds [id],
    [name] and [category]; [num_members] is included if and only if the
    serialization context carries the flag, and is not inferred from the
    record. Its value is the annotation of the row ([null] on a row that
    has none). *)
Definition ServerSerializer (context_num_members : bool) (r : Row)
  : JSONObject :=
  ([("id", JInt (server_id (instance r)));
    ("name", JStr (server_name (instance r)));
    ("category", JStr (category_name (server_category (instance r))))]
   ++ (if context_num_members
       then [("num_members",
              match num_members r with Some n => JInt n | None => JNull end)]
       else []))%list.

End serializer.

(** ** [server/views.py] *)

Module views.
Import models orm serializer.

(** What [list] may raise: the two REST framework exceptions, and two
    errors it does not catch: [ValueError], from [int(qty)] and from
    [QuerySet.__getitem__] on a negative bound, and the database's refusal
    of the query when it runs ([django.db.DatabaseError] and its
    subclasses). *)
Inductive Exception : Type :=
| AuthenticationFailed
| ValidationError (detail : string)
| ValueError
| DatabaseError.

(** [request.user] *)
Inductive User : Type :=
| AnonymousUser
| AuthenticatedUser (id : Z).

Definition is_authenticated (u : User) : bool :=
  match u with
  | AnonymousUser => false
  | AuthenticatedUser _ => true
  end.

(** [request.query_params]: the pairs of the query string in order. *)
Definition QueryDict : Type := list (string * string).

(** [query_params.get(key)]: the last value given for [key], or [None]. *)
Fixpoint get (key : string) (q : QueryDict) : option string :=
  match q with
  | [] => None
  | (k, v) :: q' =>
      match get key q' with
      | Some v' => Some v'
      | None => if String.eqb k key then Some v else None
      end
  end.

Record Request : Type := {
  query_params : QueryDict;
  user : User
}.

(** [Response(serializer.data)] *)
Definition Response : Type := list JSONObject.

Module ServerListViewSet.

Section list_action.

(** Python's [int] on a [str]; [None] stands for [ValueError]. Django's
    [filter(id=value)] prepares the lookup value with the same call. *)
Variable int : string -> option Z.

(** The database at hand. The view asks for no order: [db_order qs] is
    the rows of the selection [qs] in the order the database returns
    them. [limit_refused n]: the database refuses the query when its
    LIMIT is [n] (SQLite refuses a bound from [2^63] on; rows that are
    already fetched are cut in Python, which refuses none). *)
Variable db_order : QuerySet -> QuerySet.
Variable limit_refused : Z -> bool.

(** [queryset = Server.objects.all()] *)
Definition queryset (objects : Datatypes.list Server) : QuerySet :=
  all objects.

(** Lines 90-91. *)
Definition if_category (category : option string) (queryset : QuerySet)
  : result Exception QuerySet :=
  match category with
  | Some name =>
      if Py.truthy category
      then Ok (filter_category__name name queryset)
      else Ok queryset
  | None => Ok queryset
  end.

(** Lines 93-98. An anonymous user is not authenticated, so the anonymous
    case under the inner test is never reached. *)
Definition if_by_user (by_user : bool) (user : User) (queryset : QuerySet)
  : result Exception QuerySet :=
  if by_user then
    if by_user && is_authenticated user then
      match user with
      | AuthenticatedUser user_id => Ok (filter_member user_id queryset)
      | AnonymousUser => Raise AuthenticationFailed
      end
    else Raise AuthenticationFailed
  else Ok queryset.

(** Lines 100-101. *)
Definition if_with_num_members (with_num_members : bool)
  (queryset : QuerySet) : result Exception QuerySet :=
  if with_num_members then Ok (annotate_num_members queryset)
  else Ok queryset.

(** Lines 106-111, the body of [try]: [filter(id=by_serverid)] raises
    [ValueError] when the value is no integer. *)
Definition try_serverid (by_serverid : string) (queryset : QuerySet)
  : result Exception QuerySet :=
  match int by_serverid with
  | Some n =>
      let queryset := filter_id n queryset in
      if negb (exists_ queryset) then
        Raise (ValidationError
                 ("Server with id " ++ by_serverid ++ " not found."))
      else Ok queryset
  | None => Raise ValueError
  end.

(** Lines 112-115: [except ValueError]. *)
Definition except_ValueError {A : Type} (body handler : result Exception A)
  : result Exception A :=
  match body with
  | Raise ValueError => handler
  | _ => body
  end.

(** Lines 103-115. *)
Definition if_by_serverid (by_serverid : option string) (user : User)
  (queryset : QuerySet) : result Exception QuerySet :=
  match by_serverid with
  | Some value =>
      if Py.truthy by_serverid then
        if negb (is_authenticated user) then Raise AuthenticationFailed
        else
          except_ValueError
            (try_serverid value queryset)
            (Raise (ValidationError "Server value error"))
      else Ok queryset
  | None => Ok queryset
  end.

(** Lines 117-118. The slice is lazy: it sets the limit of the query and
    fetches nothing. [int] raises [ValueError] on a value it cannot read,
    and [QuerySet.__getitem__] raises [ValueError] on a negative bound.
    [None] is no limit. *)
Definition if_qty (qty : option string) : result Exception (option Z) :=
  match qty with
  | Some value =>
      if Py.truthy qty then
        match int value with
        | Some n => if n <? 0 then Raise ValueError else Ok (Some n)
        | None => Raise ValueError
        end
      else Ok None
  | None => Ok None
  end.

(** Line 124, [serializer.data]: the query runs. The rows come in the
    database's order, cut to the limit when there is one; the database may
    refuse the limit. *)
Definition fetch (limit : option Z) (queryset : QuerySet)
  : result Exception QuerySet :=
  match limit with
  | Some n =>
      if limit_refused n then Raise DatabaseError
      else Ok (firstn (Z.to_nat n) (db_order queryset))
  | None => Ok (db_order queryset)
  end.

(** [self.queryset] when line 103 is reached. *)
Definition queryset_at_by_serverid (request : Request)
  (objects : Datatypes.list Server) : result Exception QuerySet :=
  let q := query_params request in
  queryset <- if_category (get "category" q) (queryset objects) ;;
  queryset <- if_by_user (Py.eq_str (get "by_user" q) "true")
                (user request) queryset ;;
  if_with_num_members (Py.eq_str (get "with_num_members" q) "true") queryset.

(** [self.queryset] when line 117 is reached. *)
Definition queryset_at_qty (request : Request)
  (objects : Datatypes.list Server) : result Exception QuerySet :=
  queryset <- queryset_at_by_serverid request objects ;;
  if_by_serverid (get "by_serverid" (query_params request))
    (user request) queryset.

(** The rows the serializer reads at line 124. *)
Definition queryset_at_serializer (request : Request)
  (objects : Datatypes.list Server) : result Exception QuerySet :=
  queryset <- queryset_at_qty request objects ;;
  limit <- if_qty (get "qty" (query_params request)) ;;
  fetch limit queryset.

(** [ServerListViewSet.list], lines 84-124. *)
Definition list (request : Request) (objects : Datatypes.list Server)
  : result Exception Response :=
  let category := get "category" (query_params request) in
  let qty := get "qty" (query_params request) in
  let by_user := Py.eq_str (get "by_user" (query_params request)) "true" in
  let by_serverid := get "by_serverid" (query_params request) in
  let with_num_members :=
    Py.eq_str (get "with_num_members" (query_params request)) "true" in
  queryset <- if_category category (queryset objects) ;;
  queryset <- if_by_user by_user (user request) queryset ;;
  queryset <- if_with_num_members with_num_members queryset ;;
  queryset <- if_by_serverid by_serverid (user request) queryset ;;
  limit <- if_qty qty ;;
  rows <- fetch limit queryset ;;
  Ok (map (ServerSerializer with_num_members) rows).

End list_action.

End ServerListViewSet.

End views.

(** ** [server/schema.py] *)

Module schema.

Inductive OpenApiTypes : Type := STR | INT | BOOL.

Inductive Location : Type := QUERY | PATH | HEADER | COOKIE.

Record OpenApiParameter : Type := {
  name : string;
  type : OpenApiTypes;
  location : Location;
  description : string
}.

(** The [parameters] of [server_list_docs], lines 8-39. *)
Definition server_list_docs : list OpenApiParameter :=
  [{| name := "category"; type := STR; location := QUERY;
      description := "Category of servers to retrieve" |};
   {| name := "qty"; type := INT; location := QUERY;
      description := "Number of servers to retrieve" |};
   {| name := "by_user"; type := BOOL; location := QUERY;
      description :=
        "Filter servers by the current authenticated user (True/False)" |};
   {| name := "by_serverid"; type := INT; location := QUERY;
      description := "Iclude server by id" |};
   {| name := "with_num_members"; type := BOOL; location := QUERY;
      description :=
        "include the number of members for each server in the response" |}].

End schema.

(** ** Order of records *)

(** [subseq l m]: [l] is [m] with some elements left out, the others in
    their order. *)
Inductive subseq {A : Type} : list A -> list A -> Prop :=
| subseq_nil : subseq [] []
| subseq_skip (x : A) (l m : list A) : subseq l m -> subseq l (x :: m)
| subseq_keep (x : A) (l m : list A) : subseq l m -> subseq (x :: l) (x :: m).

(** ** Sample data *)

Module fixtures.
Import models views.

Definition gaming : Category := {| category_name := "Gaming" |}.
Definition music : Category := {| category_name := "Music" |}.

Definition server (id : Z) (name : string) (c : Category) (member : list Z)
  : Server :=
  {| server_id := id; server_name := name;
     server_category := c; server_member := member |}.

(** Five servers; user 1 belongs to three of them. *)
Definition objects : list Server :=
  [server 1 "Chess" gaming [1; 2; 3];
   server 2 "Jazz" music [2];
   server 3 "Go" gaming [1];
   server 4 "Poker" gaming [];
   server 5 "Rock" music [1; 3]].

Definition anonymous (q : QueryDict) : Request :=
  {| query_params := q; user := AnonymousUser |}.

Definition as_user (id : Z) (q : QueryDict) : Request :=
  {| query_params := q; user := AuthenticatedUser id |}.

(** Two databases: one returns the rows as the table lists them, one in
    the reverse order. *)
Definition table_order (qs : orm.QuerySet) : orm.QuerySet := qs.
Definition reverse_order (qs : orm.QuerySet) : orm.QuerySet := rev qs.

(** SQLite's refusal of a LIMIT that does not fit 64 bits. *)
Definition sqlite_limit_refused (n : Z) : bool := 2 ^ 63 <=? n.

End fixtures.

(** * Properties *)

(** ** Strings *)

Lemma rfind_from_range (c : ascii) (p : string) (i last : Z) :
  Py.rfind_from c p i last = last \/
  i <= Py.rfind_from c p i last < i + Z.of_nat (String.length p).
Proof.
  revert i last.
  induction p as [|a p IH]; intros i last; simpl String.length; simpl Py.rfind_from.
  - now left.
  - destruct (IH (i + 1) (if Ascii.eqb a c then i else last)) as [E | R].
    + rewrite E. destruct (Ascii.eqb a c); [right | left]; lia.
    + right. lia.
Qed.

Lemma rfind_range (c : ascii) (p : string) :
  -1 <= Py.rfind c p < Z.of_nat (String.length p).
Proof.
  unfold Py.rfind.
  destruct (rfind_from_range c p 0 (-1)) as [E | R]; lia.
Qed.

Lemma rfind_from_absent (c : ascii) (p : string) (i last : Z) :
  Py.has_char c p = false -> Py.rfind_from c p i last = last.
Proof.
  revert i last.
  induction p as [|a p IH]; intros i last H; simpl in *.
  - reflexivity.
  - apply orb_false_iff in H as [Ha Hp].
    rewrite Ha. now apply IH.
Qed.

Lemma rfind_absent (c : ascii) (p : string) :
  Py.has_char c p = false -> Py.rfind c p = -1.
Proof.
  intros H. unfold Py.rfind. now apply rfind_from_absent.
Qed.

Lemma get_in_range (p : string) (i : nat) :
  (i < String.length p)%nat -> exists c, get i p = Some c.
Proof.
  revert i.
  induction p as [|a p IH]; intros i H; simpl in *.
  - lia.
  - destruct i as [|i].
    + now exists a.
    + apply IH. lia.
Qed.

Lemma prefix_app (sub post : string) : prefix sub (sub ++ post) = true.
Proof.
  induction sub as [|a sub IH]; simpl.
  - now destruct post.
  - destruct (ascii_dec a a) as [_ | N]; [exact IH | now elim N].
Qed.

Lemma contains_prefix (sub s : string) :
  prefix sub s = true -> Py.contains sub s = true.
Proof.
  intros H. destruct s; cbn [Py.contains]; rewrite H; reflexivity.
Qed.

Lemma contains_app (sub pre post : string) :
  Py.contains sub (pre ++ sub ++ post) = true.
Proof.
  induction pre as [|a pre IH].
  - change (Py.contains sub (sub ++ post) = true).
    apply contains_prefix, prefix_app.
  - change (Py.contains sub (String a (pre ++ sub ++ post)) = true).
    cbn [Py.contains]. rewrite IH. apply orb_true_r.
Qed.

(** ** The loop of [splitext] *)

Lemma only_leading_dots_true (p : string) (start n : nat) :
  validators.only_leading_dots p start n = true ->
  forall k, (k < n)%nat -> get (start + k) p = Some validators.extsep.
Proof.
  revert start.
  induction n as [|n IH]; intros start H k Hk; [lia |].
  simpl in H.
  destruct (get start p) as [c |] eqn:G; [| discriminate].
  destruct (Ascii.eqb c validators.extsep) eqn:E; [| discriminate].
  apply Ascii.eqb_eq in E. subst c.
  destruct k as [|k].
  - now rewrite Nat.add_0_r.
  - replace (start + S k)%nat with (S start + k)%nat by lia.
    apply IH; [exact H | lia].
Qed.

Lemma only_leading_dots_false (p : string) (start n : nat) :
  validators.only_leading_dots p start n = false ->
  exists k, (k < n)%nat /\ get (start + k) p <> Some validators.extsep.
Proof.
  revert start.
  induction n as [|n IH]; intros start H; [discriminate |].
  simpl in H.
  destruct (get start p) as [c |] eqn:G.
  - destruct (Ascii.eqb c validators.extsep) eqn:E.
    + destruct (IH _ H) as (k & Hk & Hg).
      exists (S k). split; [lia |].
      now replace (start + S k)%nat with (S start + k)%nat by lia.
    + exists 0%nat. split; [lia |].
      rewrite Nat.add_0_r, G. intros [= ->].
      now rewrite Ascii.eqb_refl in E.
  - exists 0%nat. split; [lia |].
    now rewrite Nat.add_0_r, G.
Qed.

(** ** [splitext] against the portion after the last dot *)

Lemma has_stem_after_last_dot (p : string) :
  validators.has_stem p ->
  snd (validators.splitext p) = validators.after_last_dot p.
Proof.
  intros (i & c & Hi & Hg & Hc).
  pose proof (rfind_range validators.sep p) as Hs.
  unfold validators.splitext, validators.after_last_dot.
  destruct (Z.gtb_spec (Py.rfind validators.extsep p)
                       (Py.rfind validators.sep p)) as [_ | N]; [| lia].
  destruct (Z.ltb_spec (Py.rfind validators.extsep p) 0) as [N | _]; [lia |].
  destruct (validators.only_leading_dots p _ _) eqn:L; [| reflexivity].
  exfalso.
  pose proof (only_leading_dots_true _ _ _ L
                (Z.to_nat (i - (Py.rfind validators.sep p + 1)))) as D.
  replace (Z.to_nat (Py.rfind validators.sep p + 1) +
           Z.to_nat (i - (Py.rfind validators.sep p + 1)))%nat
    with (Z.to_nat i) in D by lia.
  rewrite Hg in D.
  assert (Some c = Some validators.extsep) as [= ->] by (apply D; lia).
  now apply Hc.
Qed.

Lemma splitext_ext_cases (p : string) :
  snd (validators.splitext p) = "" \/
  validators.has_stem p /\
  snd (validators.splitext p) = validators.after_last_dot p.
Proof.
  pose proof (rfind_range validators.sep p) as Hs.
  pose proof (rfind_range validators.extsep p) as Hd.
  destruct (Z.gtb_spec (Py.rfind validators.extsep p)
                       (Py.rfind validators.sep p)) as [G | N].
  - destruct (validators.only_leading_dots p
                (Z.to_nat (Py.rfind validators.sep p + 1))
                (Z.to_nat (Py.rfind validators.extsep p -
                           (Py.rfind validators.sep p + 1)))) eqn:L.
    + left. unfold validators.splitext.
      destruct (Z.gtb_spec (Py.rfind validators.extsep p)
                           (Py.rfind validators.sep p)); [| reflexivity].
      now rewrite L.
    + right.
      assert (validators.has_stem p) as S.
      { destruct (only_leading_dots_false _ _ _ L) as (k & Hk & Hg).
        destruct (get_in_range p
                    (Z.to_nat (Py.rfind validators.sep p + 1) + k))
          as [c Hc]; [lia |].
        exists (Py.rfind validators.sep p + 1 + Z.of_nat k), c.
        split; [lia |].
        replace (Z.to_nat (Py.rfind validators.sep p + 1 + Z.of_nat k))
          with (Z.to_nat (Py.rfind validators.sep p + 1) + k)%nat by lia.
        split; [exact Hc |].
        intros ->. now apply Hg. }
      split; [exact S | now apply has_stem_after_last_dot].
  - left. unfold validators.splitext.
    destruct (Z.gtb_spec (Py.rfind validators.extsep p)
                         (Py.rfind validators.sep p)); [lia | reflexivity].
Qed.

(** ** [splitext] and letter case *)

Lemma lower_char_extsep (a : ascii) :
  Ascii.eqb (Py.lower_char a) validators.extsep
  = Ascii.eqb a validators.extsep.
Proof.
  destruct a as [[|] [|] [|] [|] [|] [|] [|] [|]]; reflexivity.
Qed.

Lemma lower_char_sep (a : ascii) :
  Ascii.eqb (Py.lower_char a) validators.sep = Ascii.eqb a validators.sep.
Proof.
  destruct a as [[|] [|] [|] [|] [|] [|] [|] [|]]; reflexivity.
Qed.

Lemma rfind_from_lower (c : ascii) (p : string) (i last : Z) :
  (forall a, Ascii.eqb (Py.lower_char a) c = Ascii.eqb a c) ->
  Py.rfind_from c (Py.lower p) i last = Py.rfind_from c p i last.
Proof.
  intros H. revert i last.
  induction p as [| a p IH]; intros i last; simpl; [reflexivity |].
  now rewrite H, IH.
Qed.

Lemma get_lower (p : string) (i : nat) :
  get i (Py.lower p) = option_map Py.lower_char (get i p).
Proof.
  revert i.
  induction p as [| a p IH]; intros i; simpl; [reflexivity |].
  destruct i as [| i]; [reflexivity | apply IH].
Qed.

Lemma only_leading_dots_lower (p : string) (start n : nat) :
  validators.only_leading_dots (Py.lower p) start n
  = validators.only_leading_dots p start n.
Proof.
  revert start.
  induction n as [| n IH]; intros start; simpl; [reflexivity |].
  rewrite get_lower.
  destruct (get start p) as [a |]; simpl; [| reflexivity].
  now rewrite lower_char_extsep, IH.
Qed.

Lemma drop_lower (n : nat) (p : string) :
  Py.drop n (Py.lower p) = Py.lower (Py.drop n p).
Proof.
  revert p.
  induction n as [| n IH]; intros p; destruct p as [| a p]; simpl;
    try reflexivity.
  apply IH.
Qed.

Lemma splitext_lower (p : string) :
  snd (validators.splitext (Py.lower p))
  = Py.lower (snd (validators.splitext p)).
Proof.
  unfold validators.splitext, Py.rfind.
  rewrite (rfind_from_lower _ _ _ _ lower_char_sep).
  rewrite (rfind_from_lower _ _ _ _ lower_char_extsep).
  rewrite only_leading_dots_lower.
  destruct (_ >? _); [| reflexivity].
  destruct (validators.only_leading_dots _ _ _); [reflexivity |].
  apply drop_lower.
Qed.

Lemma extension_check_outcomes (value : validators.File) :
  validators.validate_image_file_exstention value =
  if validators.in_exts (Py.lower (snd (validators.splitext
                                          (validators.name value))))
  then Ok tt
  else Raise (validators.ValidationError "Unsupported file exstention").
Proof.
  unfold validators.validate_image_file_exstention.
  now destruct (validators.in_exts _).
Qed.

(** ** The icon validators *)

Section icon_validators.
Import validators.

(** C8. A supplied image that PIL decodes to [w] x [h] pixels is rejected,
    with the message that reports its size, exactly when [w] exceeds 70 or
    [h] exceeds 70, and passes exactly when both are at most 70: 71 x 50 is
    rejected, 70 x 70 and 69 x 69 pass. When no image is supplied ([None],
    or a file object without a name, which Python takes as false) the
    validator does nothing. *)
Theorem icon_image_size_check :
  (forall (f : File) (w h : Z),
      supplied (Some f) = true -> size f = Some (w, h) ->
      (validate_icon_image_size (Some f)
         = Raise (ValidationError (size_message w h))
       <-> 70 < w \/ 70 < h) /\
      (validate_icon_image_size (Some f) = Ok tt <-> w <= 70 /\ h <= 70)) /\
  (validate_icon_image_size (Some {| name := "icon.png"; size := Some (71, 50) |})
     = Raise (ValidationError (size_message 71 50)) /\
   validate_icon_image_size (Some {| name := "icon.png"; size := Some (70, 70) |})
     = Ok tt /\
   validate_icon_image_size (Some {| name := "icon.png"; size := Some (69, 69) |})
     = Ok tt) /\
  (forall image : option File,
      supplied image = false -> validate_icon_image_size image = Ok tt) /\
  validate_icon_image_size None = Ok tt.
Proof.
  split; [| split; [| split]].
  - intros f w h S D.
    unfold validate_icon_image_size. rewrite S, D.
    destruct (Z.gtb_spec w 70) as [W | W];
      destruct (Z.gtb_spec h 70) as [H | H]; simpl;
      (split; split; intros X; try discriminate X; try lia; try reflexivity).
  - repeat split.
  - intros image S. unfold validate_icon_image_size. now rewrite S.
  - reflexivity.
Qed.

(** C9, as amended. The extension the check looks at is the one
    [os.path.splitext] gives: the portion of the name from its last ['.']
    on when some character other than ['.'] stands before that ['.'] within
    the final path component, and the empty string otherwise. The check
    lower-cases it and passes the file when the result is one of [.jpg],
    [.jpeg], [.png], [.gif], [.webp], and rejects it otherwise; hence a file
    passes exactly when the lower-cased portion from its last ['.'] is in
    that list and the ['.'] has such a character before it. Names that
    differ in letter case only get the same verdict. [icon.bmp] is
    rejected whatever its pixel dimensions. *)
Theorem extension_check_follows_splitext (value : File) :
  let p := name value in
  let ext := snd (splitext p) in
  (has_stem p -> ext = after_last_dot p) /\
  (~ has_stem p -> ext = "") /\
  (validate_image_file_exstention value = Ok tt
   <-> in_exts (Py.lower ext) = true) /\
  (validate_image_file_exstention value
     = Raise (ValidationError "Unsupported file exstention")
   <-> in_exts (Py.lower ext) = false) /\
  (validate_image_file_exstention value = Ok tt
   <-> accepts_after_last_dot p = true /\ has_stem p) /\
  (forall value' : File,
      Py.lower (name value') = Py.lower p ->
      validate_image_file_exstention value'
      = validate_image_file_exstention value) /\
  (forall dims : option (Z * Z),
      validate_image_file_exstention {| name := "icon.bmp"; size := dims |}
      = Raise (ValidationError "Unsupported file exstention")).
Proof.
  intros p ext.
  pose proof (extension_check_outcomes value) as O.
  fold p in O. fold ext in O.
  pose proof (splitext_ext_cases p) as C. fold ext in C.
  split; [exact (has_stem_after_last_dot p) |].
  split; [intros N; destruct C as [E | [S _]]; [exact E | now elim N] |].
  split; [rewrite O; destruct (in_exts (Py.lower ext)); split; congruence |].
  split; [rewrite O; destruct (in_exts (Py.lower ext)); split; congruence |].
  split; [| split; [| intros dims; reflexivity]].
  2: { intros value' L.
       rewrite O, (extension_check_outcomes value').
       unfold ext. rewrite <- !splitext_lower, L. reflexivity. }
  rewrite O. unfold accepts_after_last_dot. split.
  - intros H. destruct (in_exts (Py.lower ext)) eqn:I; [| discriminate].
    destruct C as [E | [S E]].
    + rewrite E in I. discriminate.
    + split; [now rewrite <- E | exact S].
  - intros [A S].
    replace ext with (after_last_dot p)
      by (symmetry; now apply has_stem_after_last_dot).
    now rewrite A.
Qed.

(** C10. A file whose name holds no ['.'] has the empty extension; the
    empty string is none of the accepted extensions, so the check rejects
    the file. *)
Theorem dotless_name_rejected (value : File) :
  Py.has_char "." (name value) = false ->
  snd (splitext (name value)) = "" /\
  in_exts (Py.lower "") = false /\
  validate_image_file_exstention value
  = Raise (ValidationError "Unsupported file exstention").
Proof.
  intros H.
  assert (snd (splitext (name value)) = "") as E.
  { pose proof (rfind_range sep (name value)) as Hs.
    unfold splitext.
    change extsep with "."%char. rewrite (rfind_absent _ _ H).
    destruct (Z.gtb_spec (-1) (Py.rfind sep (name value)));
      [lia | reflexivity]. }
  split; [exact E |]. split; [reflexivity |].
  rewrite extension_check_outcomes, E. reflexivity.
Qed.

End icon_validators.

(** ** The steps of [list] *)

Section list_steps.
Import models orm serializer views views.ServerListViewSet.

Variable int : string -> option Z.
Variable db_order : QuerySet -> QuerySet.
Variable limit_refused : Z -> bool.
Hypothesis db_order_permutation : forall qs, Permutation (db_order qs) qs.

Lemma db_order_In (qs : QuerySet) (r : Row) :
  In r (db_order qs) <-> In r qs.
Proof.
  split; apply Permutation_in;
    [apply db_order_permutation | apply Permutation_sym, db_order_permutation].
Qed.

Lemma db_order_nil : db_order [] = [].
Proof.
  apply Permutation_nil, Permutation_sym, db_order_permutation.
Qed.

Lemma db_order_length (qs : QuerySet) :
  List.length (db_order qs) = List.length qs.
Proof.
  apply Permutation_length, db_order_permutation.
Qed.

Lemma truthy_Some (s : string) : Py.truthy (Some s) = true <-> s <> "".
Proof.
  unfold Py.truthy. destruct (String.eqb_spec s ""); simpl; split; congruence.
Qed.

Lemma eq_str_true (v : option string) (lit : string) :
  Py.eq_str v lit = true <-> v = Some lit.
Proof.
  destruct v as [s |]; simpl.
  - rewrite String.eqb_eq. split; congruence.
  - split; discriminate.
Qed.

Lemma if_category_Ok (category : option string) (qs : QuerySet) :
  if_category category qs =
  Ok (match category with
      | Some name => if Py.truthy category
                     then filter_category__name name qs else qs
      | None => qs
      end).
Proof.
  unfold if_category. destruct category as [name |]; [| reflexivity].
  now destruct (Py.truthy (Some name)).
Qed.

Lemma if_with_num_members_Ok (with_num_members : bool) (qs : QuerySet) :
  if_with_num_members with_num_members qs =
  Ok (if with_num_members then annotate_num_members qs else qs).
Proof.
  now destruct with_num_members.
Qed.

Lemma if_by_user_authenticated (by_user : bool) (u : User) (qs : QuerySet) :
  is_authenticated u = true -> exists qs', if_by_user by_user u qs = Ok qs'.
Proof.
  intros A. destruct u as [| id]; [discriminate |].
  destruct by_user; simpl; eauto.
Qed.

Lemma if_by_user_anonymous (u : User) (qs : QuerySet) :
  is_authenticated u = false -> if_by_user true u qs = Raise AuthenticationFailed.
Proof.
  intros A. destruct u as [| id]; [reflexivity | discriminate].
Qed.

Lemma if_by_serverid_anonymous (v : option string) (u : User) (qs : QuerySet) :
  is_authenticated u = false -> Py.truthy v = true ->
  if_by_serverid int v u qs = Raise AuthenticationFailed.
Proof.
  intros A T. unfold if_by_serverid.
  destruct v as [value |]; [| discriminate].
  now rewrite T, A.
Qed.

Lemma if_by_serverid_falsy (v : option string) (u : User) (qs : QuerySet) :
  Py.truthy v = false -> if_by_serverid int v u qs = Ok qs.
Proof.
  intros T. unfold if_by_serverid.
  destruct v as [value |]; [| reflexivity].
  now rewrite T.
Qed.

Lemma if_by_serverid_authenticated (value : string) (u : User) (qs : QuerySet) :
  is_authenticated u = true -> value <> "" ->
  if_by_serverid int (Some value) u qs =
  match int value with
  | Some n =>
      if exists_ (filter_id n qs) then Ok (filter_id n qs)
      else Raise (ValidationError
                    ("Server with id " ++ value ++ " not found."))
  | None => Raise (ValidationError "Server value error")
  end.
Proof.
  intros A T. apply truthy_Some in T.
  unfold if_by_serverid, try_serverid. rewrite T, A. simpl.
  destruct (int value) as [n |]; [| reflexivity].
  now destruct (exists_ (filter_id n qs)).
Qed.

Lemma if_qty_raises (v : option string) (e : Exception) :
  if_qty int v = Raise e -> e = ValueError.
Proof.
  unfold if_qty.
  destruct v as [value |]; [| discriminate].
  destruct (Py.truthy (Some value)); [| discriminate].
  destruct (int value) as [n |]; [| now intros [= <-]].
  destruct (n <? 0); [now intros [= <-] | discriminate].
Qed.

Lemma fetch_raises (limit : option Z) (qs : QuerySet) (e : Exception) :
  fetch db_order limit_refused limit qs = Raise e -> e = DatabaseError.
Proof.
  unfold fetch. destruct limit as [n |]; [| discriminate].
  destruct (limit_refused n); [now intros [= <-] | discriminate].
Qed.

(** What is fetched was selected. *)
Lemma fetch_keeps (limit : option Z) (qs rows : QuerySet) :
  fetch db_order limit_refused limit qs = Ok rows ->
  forall r, In r rows -> In r qs.
Proof.
  unfold fetch. destruct limit as [n |].
  - destruct (limit_refused n); [discriminate |].
    intros [= <-] r Hr. apply db_order_In.
    rewrite <- (firstn_skipn (Z.to_nat n) (db_order qs)).
    apply in_or_app. now left.
  - intros [= <-] r. apply db_order_In.
Qed.

(** [list] as the steps up to line 117, then the slice and the
    serializer. *)
Lemma list_from_queryset_at_qty (request : Request)
  (objects : Datatypes.list Server) :
  list int db_order limit_refused request objects =
  (qs <- queryset_at_qty int request objects ;;
   limit <- if_qty int (get "qty" (query_params request)) ;;
   rows <- fetch db_order limit_refused limit qs ;;
   Ok (map (ServerSerializer
              (Py.eq_str (get "with_num_members" (query_params request))
                         "true")) rows)).
Proof.
  unfold list, queryset_at_qty, queryset_at_by_serverid.
  destruct (if_category _ _) as [q1 | e]; [simpl | reflexivity].
  destruct (if_by_user _ _ _) as [q2 | e]; [simpl | reflexivity].
  destruct (if_with_num_members _ _) as [q3 | e]; reflexivity.
Qed.

Lemma queryset_at_by_serverid_authenticated (request : Request)
  (objects : Datatypes.list Server) :
  is_authenticated (user request) = true ->
  exists qs, queryset_at_by_serverid request objects = Ok qs.
Proof.
  intros A. unfold queryset_at_by_serverid.
  rewrite if_category_Ok. simpl.
  destruct (if_by_user_authenticated
              (Py.eq_str (get "by_user" (query_params request)) "true")
              (user request)
              (match get "category" (query_params request) with
               | Some name =>
                   if Py.truthy (get "category" (query_params request))
                   then filter_category__name name (queryset objects)
                   else queryset objects
               | None => queryset objects
               end) A) as [q2 E].
  rewrite E. simpl. rewrite if_with_num_members_Ok.
  eexists; reflexivity.
Qed.

Lemma filter_category_instances (category : string)
  (objects : Datatypes.list Server) :
  map instance (filter_category__name category (all objects)) =
  filter (fun s => String.eqb (category_name (server_category s)) category)
         objects.
Proof.
  induction objects as [| s objects IH]; [reflexivity |].
  unfold filter_category__name, all in *. simpl.
  destruct (String.eqb _ category); simpl; now rewrite IH.
Qed.

Lemma filter_category_unmatched (category : string)
  (objects : Datatypes.list Server) :
  (forall s, In s objects -> category_name (server_category s) <> category) ->
  filter_category__name category (all objects) = [].
Proof.
  intros H.
  apply map_eq_nil with (f := instance).
  rewrite filter_category_instances.
  induction objects as [| s objects IH]; [reflexivity |].
  simpl. destruct (String.eqb_spec (category_name (server_category s)) category)
    as [E | _].
  - elim (H s (or_introl eq_refl) E).
  - apply IH. intros s' Hs'. apply H. now right.
Qed.

Lemma if_annotate_nil (with_num_members : bool) :
  (if with_num_members then annotate_num_members [] else []) = [].
Proof.
  now destruct with_num_members.
Qed.

Lemma if_by_user_nil (by_user : bool) (u : User) (qs : QuerySet) :
  if_by_user by_user u [] = Ok qs -> qs = [].
Proof.
  destruct by_user, u; cbv; congruence.
Qed.

Lemma if_by_serverid_nil (v : option string) (u : User) (qs : QuerySet) :
  if_by_serverid int v u [] = Ok qs -> qs = [].
Proof.
  unfold if_by_serverid, try_serverid.
  destruct v as [value |]; [| congruence].
  destruct (Py.truthy (Some value)); [| congruence].
  destruct (is_authenticated u); simpl; [| discriminate].
  destruct (int value); simpl; discriminate.
Qed.

Lemma fetch_nil (limit : option Z) (rows : QuerySet) :
  fetch db_order limit_refused limit [] = Ok rows -> rows = [].
Proof.
  unfold fetch. rewrite db_order_nil. destruct limit as [n |].
  - destruct (limit_refused n); [discriminate |].
    rewrite firstn_nil. congruence.
  - congruence.
Qed.

End list_steps.

(** ** The list endpoint *)

Section list_properties.
Import models orm serializer views views.ServerListViewSet.

(** Python's [int]; it accepts no empty string. *)
Variable int : string -> option Z.
Hypothesis int_empty : int "" = None.

(** The database: the order it returns rows in is a rearrangement of the
    selection. *)
Variable db_order : QuerySet -> QuerySet.
Variable limit_refused : Z -> bool.
Hypothesis db_order_permutation : forall qs, Permutation (db_order qs) qs.

(** C2, as amended. For an unauthenticated requester, a request whose
    [by_user] is the string [true], or whose [by_serverid] is present and
    not empty, fails with [AuthenticationFailed], whatever its other
    parameters; the one step that runs before the checks, the category
    filter, raises nothing. *)
Theorem anonymous_gated_filters_fail (request : Request)
  (objects : Datatypes.list Server) :
  is_authenticated (user request) = false ->
  get "by_user" (query_params request) = Some "true" \/
  Py.truthy (get "by_serverid" (query_params request)) = true ->
  list int db_order limit_refused request objects = Raise AuthenticationFailed /\
  exists qs,
    if_category (get "category" (query_params request)) (queryset objects)
    = Ok qs.
Proof.
  intros A H.
  split; [| rewrite if_category_Ok; eexists; reflexivity].
  unfold list. rewrite if_category_Ok. simpl.
  destruct (Py.eq_str (get "by_user" (query_params request)) "true") eqn:B.
  - now rewrite if_by_user_anonymous.
  - destruct H as [H | H].
    + apply eq_str_true in H. congruence.
    + simpl. rewrite if_with_num_members_Ok. simpl.
      now rewrite if_by_serverid_anonymous.
Qed.

(** C3, as amended. For an authenticated requester, a [by_serverid] that
    is present, not empty, and that [int] refuses makes the request fail
    with [ValidationError] and the message [Server value error]. *)
Theorem by_serverid_value_error (request : Request)
  (objects : Datatypes.list Server) (value : string) :
  is_authenticated (user request) = true ->
  get "by_serverid" (query_params request) = Some value ->
  value <> "" ->
  int value = None ->
  list int db_order limit_refused request objects = Raise (ValidationError "Server value error").
Proof.
  intros A G N P.
  rewrite list_from_queryset_at_qty. unfold queryset_at_qty.
  destruct (queryset_at_by_serverid_authenticated request objects A)
    as [qs E].
  rewrite E. cbn [bind].
  rewrite G, if_by_serverid_authenticated, P by assumption.
  reflexivity.
Qed.

(** C1, as amended. For an authenticated requester and a [by_serverid]
    that [int] reads as [n], the existence check runs on the collection as
    the category, [by_user] and [with_num_members] steps left it: the
    request fails with [ValidationError] and the message
    [Server with id <by_serverid> not found.], which holds the requested
    id, exactly when no record of that collection has identifier [n],
    whether or not the base collection has one. *)
Theorem by_serverid_checked_after_filters (request : Request)
  (objects : Datatypes.list Server) (value : string) (n : Z)
  (qs : QuerySet) :
  is_authenticated (user request) = true ->
  get "by_serverid" (query_params request) = Some value ->
  int value = Some n ->
  queryset_at_by_serverid request objects = Ok qs ->
  (list int db_order limit_refused request objects
     = Raise (ValidationError ("Server with id " ++ value ++ " not found."))
   <-> forall r, In r qs -> server_id (instance r) <> n) /\
  Py.contains value ("Server with id " ++ value ++ " not found.") = true.
Proof.
  intros A G P E.
  assert (value <> "") as N by (intros ->; congruence).
  split; [| apply contains_app].
  rewrite list_from_queryset_at_qty. unfold queryset_at_qty.
  rewrite E. cbn [bind].
  rewrite G, if_by_serverid_authenticated, P by assumption.
  destruct (filter_id n qs) as [| r0 rest] eqn:F; cbn [exists_ bind].
  - split; [intros _ | reflexivity].
    intros r Hr Hid.
    assert (In r (filter_id n qs)) as Hin.
    { apply filter_In. split; [exact Hr | now apply Z.eqb_eq]. }
    rewrite F in Hin. contradiction.
  - split; intros H; exfalso.
    + destruct (if_qty int _) as [limit | e] eqn:Q; cbn [bind] in H.
      * destruct (fetch db_order limit_refused limit _) as [rows | e] eqn:F';
          cbn [bind] in H; [discriminate |].
        apply fetch_raises in F'. subst e. discriminate.
      * apply if_qty_raises in Q. subst e. discriminate.
    + assert (In r0 (filter_id n qs)) as Hin by (rewrite F; now left).
      apply filter_In in Hin as [Hin Hid].
      apply Z.eqb_eq in Hid. exact (H r0 Hin Hid).
Qed.

(** C6, as amended. A [qty] that [int] reads as a number [n], not
    negative, that the database accepts as a limit, cuts the collection
    that the four earlier steps (filters and annotation) left down to its
    first [n] records, in the order the database returns them, and nothing
    comes after the cut but the serializer. That order is the one in which
    the same request lists the collection without [qty]; so the response is
    the first [n] records of what the request lists without the cut, it has
    at most [n] records, and each is a record the earlier steps left. *)
Theorem qty_truncates_last (request : Request)
  (objects : Datatypes.list Server) (value : string) (n : Z)
  (qs : QuerySet) :
  get "qty" (query_params request) = Some value ->
  int value = Some n ->
  0 <= n ->
  limit_refused n = false ->
  queryset_at_qty int request objects = Ok qs ->
  let serialize :=
    ServerSerializer
      (Py.eq_str (get "with_num_members" (query_params request)) "true") in
  list int db_order limit_refused request objects
  = Ok (firstn (Z.to_nat n) (map serialize (db_order qs))) /\
  (forall request' : Request,
      user request' = user request ->
      get "category" (query_params request')
      = get "category" (query_params request) ->
      get "by_user" (query_params request')
      = get "by_user" (query_params request) ->
      get "with_num_members" (query_params request')
      = get "with_num_members" (query_params request) ->
      get "by_serverid" (query_params request')
      = get "by_serverid" (query_params request) ->
      Py.truthy (get "qty" (query_params request')) = false ->
      list int db_order limit_refused request' objects
      = Ok (map serialize (db_order qs))) /\
  firstn (Z.to_nat n) (map serialize (db_order qs))
  = map serialize (firstn (Z.to_nat n) (db_order qs)) /\
  Z.of_nat (List.length (firstn (Z.to_nat n) (map serialize (db_order qs))))
  <= n /\
  (forall r, In r (firstn (Z.to_nat n) (db_order qs)) -> In r qs).
Proof.
  intros G P Hn Hl E serialize.
  assert (value <> "") as N by (intros ->; congruence).
  apply truthy_Some in N.
  split; [| split; [| split; [| split]]].
  - rewrite list_from_queryset_at_qty, E. cbn [bind].
    unfold if_qty. rewrite G, N, P.
    destruct (Z.ltb_spec n 0); [lia |]. cbn [bind fetch].
    rewrite Hl. cbn [bind]. now rewrite firstn_map.
  - intros request' U C B W S Q.
    rewrite list_from_queryset_at_qty.
    assert (queryset_at_qty int request' objects = Ok qs) as E'.
    { rewrite <- E. unfold queryset_at_qty, queryset_at_by_serverid.
      now rewrite U, C, B, W, S. }
    rewrite E'. cbn [bind].
    assert (if_qty int (get "qty" (query_params request')) = Ok None) as ->.
    { unfold if_qty. destruct (get "qty" (query_params request'));
        [now rewrite Q | reflexivity]. }
    cbn [bind fetch]. unfold serialize. now rewrite W.
  - apply firstn_map.
  - pose proof (firstn_le_length (Z.to_nat n) (map serialize (db_order qs))).
    lia.
  - intros r Hr. apply (db_order_In db_order db_order_permutation).
    rewrite <- (firstn_skipn (Z.to_nat n) (db_order qs)).
    apply in_or_app. now left.
Qed.

(** C7, as amended. A [category] that is present and not empty never
    makes the category step fail; the step keeps exactly the servers whose
    category name equals the given string, character for character. When
    no server matches, the step leaves the collection empty; the request
    then returns the empty sequence whenever it returns, and it does
    return when no later step fails: [by_user] is not [true] or the
    requester is authenticated, [by_serverid] is absent or empty, and
    [qty] is absent, empty, or read by [int] as a number that is not
    negative and that the database accepts as a limit. *)
Theorem category_filter_exact (request : Request)
  (objects : Datatypes.list Server) (category : string) :
  get "category" (query_params request) = Some category ->
  category <> "" ->
  (exists qs,
      if_category (Some category) (queryset objects) = Ok qs /\
      forall s, In s (map instance qs) <->
                In s objects /\ category_name (server_category s) = category) /\
  ((forall s, In s objects -> category_name (server_category s) <> category) ->
   if_category (Some category) (queryset objects) = Ok [] /\
   (forall data,
       list int db_order limit_refused request objects = Ok data ->
       data = []) /\
   (Py.eq_str (get "by_user" (query_params request)) "true" = false \/
    is_authenticated (user request) = true ->
    Py.truthy (get "by_serverid" (query_params request)) = false ->
    Py.truthy (get "qty" (query_params request)) = false \/
    (exists v n, get "qty" (query_params request) = Some v /\
                 int v = Some n /\ 0 <= n /\ limit_refused n = false) ->
    list int db_order limit_refused request objects = Ok [])).
Proof.
  intros G N.
  pose proof (proj2 (truthy_Some category) N) as T.
  assert (if_category (Some category) (queryset objects)
          = Ok (filter_category__name category (all objects))) as C.
  { rewrite if_category_Ok, T. reflexivity. }
  split.
  - eexists. split; [exact C |].
    intros s. rewrite filter_category_instances, filter_In, String.eqb_eq.
    reflexivity.
  - intros U. rewrite (filter_category_unmatched _ _ U) in C.
    split; [exact C |].
    split.
    + intros data. unfold list. rewrite G, C. cbn [bind].
      destruct (if_by_user _ _ _) as [q2 |] eqn:E2; cbn [bind];
        [| discriminate].
      apply if_by_user_nil in E2. subst q2.
      rewrite if_with_num_members_Ok. cbn [bind].
      rewrite if_annotate_nil.
      destruct (if_by_serverid int _ _ _) as [q4 |] eqn:E4; cbn [bind];
        [| discriminate].
      apply if_by_serverid_nil in E4. subst q4.
      destruct (if_qty int _) as [limit |] eqn:E5; cbn [bind];
        [| discriminate].
      destruct (fetch db_order limit_refused limit []) as [rows |] eqn:E6;
        cbn [bind]; [| discriminate].
      apply (fetch_nil db_order limit_refused db_order_permutation) in E6.
      subst rows. simpl. congruence.
    + intros B S Q. unfold list. rewrite G, C. cbn [bind].
      assert (if_by_user
                (Py.eq_str (get "by_user" (query_params request)) "true")
                (user request) [] = Ok []) as E2.
      { destruct B as [B | B]; [now rewrite B |].
        destruct (user request); [discriminate |].
        now destruct (Py.eq_str _ _). }
      rewrite E2. cbn [bind].
      rewrite if_with_num_members_Ok. cbn [bind].
      rewrite if_annotate_nil.
      rewrite if_by_serverid_falsy by exact S. cbn [bind].
      pose proof (db_order_nil db_order db_order_permutation) as D.
      destruct Q as [Q | (v & n & Gq & P & Hn & Hl)].
      * assert (if_qty int (get "qty" (query_params request)) = Ok None)
          as ->.
        { unfold if_qty. destruct (get "qty" (query_params request));
            [now rewrite Q | reflexivity]. }
        cbn [bind fetch]. now rewrite D.
      * unfold if_qty. rewrite Gq, P.
        destruct (Py.truthy (Some v)); cbn [bind fetch].
        -- destruct (Z.ltb_spec n 0); [lia |]. cbn [bind fetch].
           rewrite Hl, D, firstn_nil. reflexivity.
        -- now rewrite D.
Qed.

End list_properties.

(** ** The [num_members] field *)

Section num_members_field.
Import models orm serializer views views.ServerListViewSet.

Variable int : string -> option Z.
Variable db_order : QuerySet -> QuerySet.
Variable limit_refused : Z -> bool.
Hypothesis db_order_permutation : forall qs, Permutation (db_order qs) qs.

Lemma if_by_serverid_keeps (v : option string) (u : User)
  (qs qs' : QuerySet) :
  if_by_serverid int v u qs = Ok qs' -> forall r, In r qs' -> In r qs.
Proof.
  unfold if_by_serverid, try_serverid.
  destruct v as [value |]; [| now intros [= <-]].
  destruct (Py.truthy (Some value)); [| now intros [= <-]].
  destruct (is_authenticated u); simpl; [| discriminate].
  destruct (int value) as [n |]; simpl; [| discriminate].
  destruct (exists_ (filter_id n qs)); simpl; [| discriminate].
  intros [= <-] r Hr. unfold filter_id in Hr.
  now apply filter_In in Hr.
Qed.

(** What [list] returns is the serialization of rows that were in the
    collection when line 103 was reached. *)
Lemma list_rows (request : Request) (objects : Datatypes.list Server)
  (data : Response) :
  list int db_order limit_refused request objects = Ok data ->
  exists q3 qs,
    queryset_at_by_serverid request objects = Ok q3 /\
    (forall r, In r qs -> In r q3) /\
    data = map (ServerSerializer
                  (Py.eq_str (get "with_num_members" (query_params request))
                             "true")) qs.
Proof.
  rewrite list_from_queryset_at_qty. unfold queryset_at_qty.
  destruct (queryset_at_by_serverid request objects) as [q3 |];
    cbn [bind]; [| discriminate].
  destruct (if_by_serverid int _ _ _) as [q4 |] eqn:E4; cbn [bind];
    [| discriminate].
  destruct (if_qty int _) as [limit |]; cbn [bind]; [| discriminate].
  destruct (fetch db_order limit_refused limit q4) as [q5 |] eqn:E5;
    cbn [bind]; [| discriminate].
  intros [= <-]. exists q3, q5. split; [reflexivity |].
  split; [| reflexivity].
  intros r Hr. eapply if_by_serverid_keeps; [exact E4 |].
  eapply fetch_keeps; [exact db_order_permutation | exact E5 | exact Hr].
Qed.

Lemma category_step_rows (category : option string)
  (objects : Datatypes.list Server) (qs : QuerySet) (r : Row) :
  if_category category (queryset objects) = Ok qs -> In r qs ->
  In (instance r) objects /\ joined_member r = server_member (instance r).
Proof.
  rewrite if_category_Ok. intros [= <-] Hr.
  assert (In r (all objects)) as Ha.
  { destruct category as [name |]; [| exact Hr].
    destruct (Py.truthy (Some name)); [| exact Hr].
    unfold filter_category__name in Hr. now apply filter_In in Hr. }
  unfold all in Ha. apply in_map_iff in Ha as (s & <- & Hs).
  now split.
Qed.

Lemma filter_member_rows (user_id : Z) (qs : QuerySet) (r : Row) :
  In r (filter_member user_id qs) ->
  exists r0, In r0 qs /\ instance r = instance r0 /\
             joined_member r = filter (Z.eqb user_id) (joined_member r0).
Proof.
  unfold filter_member. intros Hr.
  apply in_map_iff in Hr as (r0 & <- & H0).
  apply filter_In in H0 as [H0 _].
  exists r0. now repeat split.
Qed.

Lemma annotate_rows (qs : QuerySet) (r : Row) :
  In r (annotate_num_members qs) ->
  exists r0, In r0 qs /\ instance r = instance r0 /\
             num_members r = Some (Z.of_nat (List.length (joined_member r0))).
Proof.
  unfold annotate_num_members. intros Hr.
  apply in_map_iff in Hr as (r0 & <- & H0).
  exists r0. now repeat split.
Qed.

(** The key is in a record exactly when the flag is set. *)
Lemma num_members_key_follows_flag (request : Request)
  (objects : Datatypes.list Server) (data : Response) :
  list int db_order limit_refused request objects = Ok data ->
  forall o, In o data ->
    has_key "num_members" o
    = Py.eq_str (get "with_num_members" (query_params request)) "true".
Proof.
  intros L o Ho.
  destruct (list_rows _ _ _ L) as (q3 & qs & _ & _ & ->).
  apply in_map_iff in Ho as (r & <- & _).
  now destruct (Py.eq_str _ _).
Qed.

(** Without the [by_user] filter the value is the number of members of the
    record's server. *)
Lemma num_members_without_by_user (request : Request)
  (objects : Datatypes.list Server) (data : Response) :
  Py.eq_str (get "by_user" (query_params request)) "true" = false ->
  Py.eq_str (get "with_num_members" (query_params request)) "true" = true ->
  list int db_order limit_refused request objects = Ok data ->
  forall o, In o data ->
    exists s, In s objects /\
      lookup "id" o = Some (JInt (server_id s)) /\
      lookup "num_members" o
      = Some (JInt (Z.of_nat (List.length (server_member s)))).
Proof.
  intros B W L o Ho.
  destruct (list_rows _ _ _ L) as (q3 & qs & E3 & Sub & ->).
  rewrite W in Ho. apply in_map_iff in Ho as (r & <- & Hr).
  apply Sub in Hr.
  unfold queryset_at_by_serverid in E3. rewrite B, W in E3.
  destruct (if_category _ _) as [q1 |] eqn:E1; cbn in E3; [| discriminate].
  injection E3 as <-.
  apply annotate_rows in Hr as (r0 & H0 & Hi & Hn).
  destruct (category_step_rows _ _ _ _ E1 H0) as [Hs Hj].
  exists (instance r0). split; [exact Hs |].
  unfold ServerSerializer. simpl. rewrite Hi, Hn, Hj. now split.
Qed.

(** After the [by_user] filter the value counts the rows of the relation
    that name the requester only. *)
Lemma num_members_with_by_user (request : Request)
  (objects : Datatypes.list Server) (data : Response) (user_id : Z) :
  user request = AuthenticatedUser user_id ->
  Py.eq_str (get "by_user" (query_params request)) "true" = true ->
  Py.eq_str (get "with_num_members" (query_params request)) "true" = true ->
  list int db_order limit_refused request objects = Ok data ->
  forall o, In o data ->
    exists s, In s objects /\
      lookup "id" o = Some (JInt (server_id s)) /\
      lookup "num_members" o
      = Some (JInt (Z.of_nat (List.length (filter (Z.eqb user_id)
                                                  (server_member s))))).
Proof.
  intros A B W L o Ho.
  destruct (list_rows _ _ _ L) as (q3 & qs & E3 & Sub & ->).
  rewrite W in Ho. apply in_map_iff in Ho as (r & <- & Hr).
  apply Sub in Hr.
  unfold queryset_at_by_serverid in E3. rewrite A, B, W in E3.
  destruct (if_category _ _) as [q1 |] eqn:E1; cbn in E3; [| discriminate].
  injection E3 as <-.
  apply annotate_rows in Hr as (r1 & H1 & Hi1 & Hn).
  apply filter_member_rows in H1 as (r0 & H0 & Hi0 & Hj0).
  destruct (category_step_rows _ _ _ _ E1 H0) as [Hs Hj].
  exists (instance r0). split; [exact Hs |].
  unfold ServerSerializer. simpl. rewrite Hi1, Hi0, Hn, Hj0, Hj. now split.
Qed.

(** C5, on a request that sets both [by_user] and [with_num_members].
    User 1 asks for the servers they belong to, with member counts; the
    one server has three members, and its record says [num_members: 1],
    not 3: the count is taken over the join that the [by_user] filter
    narrowed to the requester. *)
Theorem num_members_after_by_user_is_one :
  list int db_order limit_refused
    {| query_params := [("by_user", "true"); ("with_num_members", "true")];
       user := AuthenticatedUser 1 |}
    [{| server_id := 7; server_name := "Chess";
        server_category := {| category_name := "Gaming" |};
        server_member := [1; 2; 3] |}]
  = Ok [[("id", JInt 7); ("name", JStr "Chess"); ("category", JStr "Gaming");
         ("num_members", JInt 1)]].
Proof.
  assert (forall r : Row, db_order [r] = [r]) as D.
  { intros r. apply Permutation_length_1_inv, Permutation_sym,
      db_order_permutation. }
  unfold list. cbn. rewrite D. reflexivity.
Qed.

End num_members_field.

(** * Examples *)

Section examples.
Import models orm serializer views views.ServerListViewSet fixtures.

Lemma table_order_permutation (qs : QuerySet) :
  Permutation (table_order qs) qs.
Proof.
  apply Permutation_refl.
Qed.

Lemma reverse_order_permutation (qs : QuerySet) :
  Permutation (reverse_order qs) qs.
Proof.
  apply Permutation_sym, Permutation_rev.
Qed.

(** User 1 asks for server 2 among the Gaming servers; server 2 exists but
    is a Music server. *)
Lemma by_serverid_checked_after_filters_witness :
  In (server 2 "Jazz" music [2]) objects /\
  list Py.int table_order sqlite_limit_refused (as_user 1 [("category", "Gaming"); ("by_serverid", "2")])
       objects
  = Raise (ValidationError "Server with id 2 not found.").
Proof.
  split; [simpl; tauto |].
  apply (proj1 (by_serverid_checked_after_filters Py.int eq_refl
                  table_order sqlite_limit_refused
                  (as_user 1 [("category", "Gaming"); ("by_serverid", "2")])
                  objects "2" 2
                  (all [server 1 "Chess" gaming [1; 2; 3];
                        server 3 "Go" gaming [1];
                        server 4 "Poker" gaming []])
                  eq_refl eq_refl eq_refl eq_refl)).
  intros r Hr. simpl in Hr.
  destruct Hr as [<- | [<- | [<- | []]]]; discriminate.
Defined.

(** The same request from an anonymous requester fails on the
    authentication check, not on the existence check. *)
Lemma by_serverid_anonymous_counterexample :
  get "by_serverid" [("category", "Gaming"); ("by_serverid", "2")] = Some "2" /\
  Py.int "2" = Some 2 /\
  In (server 2 "Jazz" music [2]) objects /\
  queryset_at_by_serverid
    (anonymous [("category", "Gaming"); ("by_serverid", "2")]) objects
  = Ok (all [server 1 "Chess" gaming [1; 2; 3];
             server 3 "Go" gaming [1];
             server 4 "Poker" gaming []]) /\
  list Py.int table_order sqlite_limit_refused (anonymous [("category", "Gaming"); ("by_serverid", "2")])
       objects
  = Raise AuthenticationFailed.
Proof.
  repeat split; try reflexivity. simpl; tauto.
Qed.

Lemma anonymous_gated_filters_fail_witness :
  list Py.int table_order sqlite_limit_refused (anonymous [("qty", "x"); ("by_user", "true")]) objects
  = Raise AuthenticationFailed /\
  list Py.int table_order sqlite_limit_refused (anonymous [("by_serverid", "abc")]) objects
  = Raise AuthenticationFailed.
Proof.
  split.
  - exact (proj1 (anonymous_gated_filters_fail Py.int
                    table_order sqlite_limit_refused
                    (anonymous [("qty", "x"); ("by_user", "true")]) objects
                    eq_refl (or_introl eq_refl))).
  - exact (proj1 (anonymous_gated_filters_fail Py.int
                    table_order sqlite_limit_refused
                    (anonymous [("by_serverid", "abc")]) objects
                    eq_refl (or_intror eq_refl))).
Defined.

(** [by_serverid] is present and empty: line 103 takes it as false, and
    the anonymous requester gets the whole list. *)
Lemma empty_by_serverid_anonymous_counterexample :
  get "by_serverid" [("by_serverid", "")] = Some "" /\
  list Py.int table_order sqlite_limit_refused (anonymous [("by_serverid", "")]) objects
  = Ok (map (ServerSerializer false) (all objects)).
Proof.
  split; reflexivity.
Qed.

Lemma by_serverid_value_error_witness :
  Py.int "abc" = None /\
  list Py.int table_order sqlite_limit_refused (as_user 1 [("by_serverid", "abc")]) objects
  = Raise (ValidationError "Server value error").
Proof.
  split; [reflexivity |].
  apply (by_serverid_value_error Py.int table_order sqlite_limit_refused
           (as_user 1 [("by_serverid", "abc")]) objects "abc");
    [reflexivity | reflexivity | discriminate | reflexivity].
Defined.

(** A [by_serverid] that [int] refuses, from an anonymous requester, and an
    empty one, which [int] refuses too, from an authenticated one. *)
Lemma by_serverid_unparsable_counterexample :
  (Py.int "abc" = None /\
   list Py.int table_order sqlite_limit_refused (anonymous [("by_serverid", "abc")]) objects
   = Raise AuthenticationFailed) /\
  (Py.int "" = None /\
   get "by_serverid" [("by_serverid", "")] = Some "" /\
   list Py.int table_order sqlite_limit_refused (as_user 1 [("by_serverid", "")]) objects
   = Ok (map (ServerSerializer false) (all objects))).
Proof.
  repeat split.
Qed.

(** [qty=2] on the five servers: the first two that the database
    returns. One that lists the table as it is returns servers 1 and 2;
    one that lists it backwards returns servers 5 and 4, and for
    [by_user=true&qty=1] the last of user 1's servers, 5. *)
Lemma qty_truncates_last_witness :
  list Py.int table_order sqlite_limit_refused
       (anonymous [("qty", "2")]) objects
  = Ok (map (ServerSerializer false)
            (all [server 1 "Chess" gaming [1; 2; 3];
                  server 2 "Jazz" music [2]])) /\
  list Py.int reverse_order sqlite_limit_refused
       (anonymous [("qty", "2")]) objects
  = Ok (map (ServerSerializer false)
            (all [server 5 "Rock" music [1; 3];
                  server 4 "Poker" gaming []])) /\
  list Py.int reverse_order sqlite_limit_refused
       (as_user 1 [("by_user", "true"); ("qty", "1")]) objects
  = Ok [[("id", JInt 5); ("name", JStr "Rock"); ("category", JStr "Music")]].
Proof.
  split; [| split].
  3: exact (proj1 (qty_truncates_last Py.int eq_refl
                     reverse_order sqlite_limit_refused
                     reverse_order_permutation
                     (as_user 1 [("by_user", "true"); ("qty", "1")]) objects
                     "1" 1 (filter_member 1 (all objects))
                     eq_refl eq_refl (proj1 (Z.leb_le 0 1) eq_refl)
                     eq_refl eq_refl)).
  - exact (proj1 (qty_truncates_last Py.int eq_refl
                    table_order sqlite_limit_refused table_order_permutation
                    (anonymous [("qty", "2")]) objects "2" 2 (all objects)
                    eq_refl eq_refl (proj1 (Z.leb_le 0 2) eq_refl)
                    eq_refl eq_refl)).
  - exact (proj1 (qty_truncates_last Py.int eq_refl
                    reverse_order sqlite_limit_refused
                    reverse_order_permutation
                    (anonymous [("qty", "2")]) objects "2" 2 (all objects)
                    eq_refl eq_refl (proj1 (Z.leb_le 0 2) eq_refl)
                    eq_refl eq_refl)).
Defined.

(** A [qty] of [2^63] is a number that is not negative; SQLite refuses it
    as a limit, and [list] does not catch the error. *)
Lemma qty_beyond_limit_counterexample :
  get "qty" [("qty", "9223372036854775808")] = Some "9223372036854775808" /\
  Py.int "9223372036854775808" = Some (2 ^ 63) /\
  0 <= 2 ^ 63 /\
  sqlite_limit_refused (2 ^ 63) = true /\
  list Py.int table_order sqlite_limit_refused
       (anonymous [("qty", "9223372036854775808")]) objects
  = Raise DatabaseError.
Proof.
  repeat split; try reflexivity. discriminate.
Qed.

(** No server is in category [gaming], in lower case. *)
Lemma category_filter_exact_witness :
  list Py.int table_order sqlite_limit_refused (anonymous [("category", "gaming"); ("qty", "3")]) objects
  = Ok [].
Proof.
  refine (proj2 (proj2 (proj2
            (category_filter_exact Py.int
               table_order sqlite_limit_refused table_order_permutation
               (anonymous [("category", "gaming"); ("qty", "3")]) objects
               "gaming" eq_refl _) _)) _ _ _).
  - discriminate.
  - intros s Hs. simpl in Hs.
    destruct Hs as [<- | [<- | [<- | [<- | [<- | []]]]]]; discriminate.
  - left. reflexivity.
  - reflexivity.
  - right. exists "3", 3. repeat split. lia.
Defined.

(** No server is in category [Nope], and the request fails. *)
Lemma unmatched_category_counterexample :
  existsb (fun s => String.eqb (category_name (server_category s)) "Nope")
          objects = false /\
  list Py.int table_order sqlite_limit_refused (as_user 1 [("category", "Nope"); ("by_serverid", "1")])
       objects
  = Raise (ValidationError "Server with id 1 not found.").
Proof.
  split; reflexivity.
Qed.

Lemma icon_image_size_check_witness :
  validators.validate_icon_image_size
    (Some {| validators.name := "icon.png";
             validators.size := Some (50, 71) |})
  = Raise (validators.ValidationError (validators.size_message 50 71)).
Proof.
  apply (proj1 (proj1 icon_image_size_check
                  {| validators.name := "icon.png";
                     validators.size := Some (50, 71) |} 50 71
                  eq_refl eq_refl)).
  right. lia.
Defined.

Lemma extension_check_follows_splitext_witness :
  validators.validate_image_file_exstention
    {| validators.name := "ICON.Png"; validators.size := None |} = Ok tt.
Proof.
  apply (proj1 (proj2 (proj2 (extension_check_follows_splitext
           {| validators.name := "ICON.Png"; validators.size := None |})))).
  reflexivity.
Defined.

(** The portion after the last dot of [.png] is an accepted extension, and
    the file is rejected: [splitext] gives it no extension. *)
Lemma extension_of_dot_name_counterexample :
  validators.after_last_dot ".png" = ".png" /\
  validators.accepts_after_last_dot ".png" = true /\
  snd (validators.splitext ".png") = "" /\
  validators.validate_image_file_exstention
    {| validators.name := ".png"; validators.size := Some (16, 16) |}
  = Raise (validators.ValidationError "Unsupported file exstention").
Proof.
  repeat split.
Qed.

Lemma dotless_name_rejected_witness :
  validators.validate_image_file_exstention
    {| validators.name := "README"; validators.size := Some (16, 16) |}
  = Raise (validators.ValidationError "Unsupported file exstention").
Proof.
  exact (proj2 (proj2 (dotless_name_rejected
           {| validators.name := "README"; validators.size := Some (16, 16) |}
           eq_refl))).
Defined.

End examples.

(** * Further properties *)

(** ** Subsequences *)

Lemma subseq_refl {A : Type} (l : list A) : subseq l l.
Proof.
  induction l as [| x l IH]; [apply subseq_nil | now apply subseq_keep].
Qed.

Lemma subseq_trans {A : Type} (l m n : list A) :
  subseq l m -> subseq m n -> subseq l n.
Proof.
  intros H1 H2. revert l H1.
  induction H2 as [| x m n H2 IH | x m n H2 IH]; intros l H1.
  - exact H1.
  - constructor. now apply IH.
  - inversion H1 as [| y l' m' H | y l' m' H]; subst.
    + apply subseq_skip. now apply IH.
    + apply subseq_keep. now apply IH.
Qed.

Lemma subseq_filter {A : Type} (f : A -> bool) (l : list A) :
  subseq (filter f l) l.
Proof.
  induction l as [| x l IH]; simpl; [apply subseq_nil |].
  destruct (f x); [now apply subseq_keep | now apply subseq_skip].
Qed.

Lemma subseq_firstn {A : Type} (n : nat) (l : list A) : subseq (firstn n l) l.
Proof.
  revert n.
  induction l as [| x l IH]; intros n.
  - rewrite firstn_nil. apply subseq_nil.
  - destruct n as [| n]; simpl.
    + apply subseq_skip. apply (IH 0%nat).
    + apply subseq_keep. apply IH.
Qed.

Lemma subseq_map {A B : Type} (f : A -> B) (l m : list A) :
  subseq l m -> subseq (map f l) (map f m).
Proof.
  induction 1; simpl;
    [apply subseq_nil | now apply subseq_skip | now apply subseq_keep].
Qed.

Lemma subseq_length {A : Type} (l m : list A) :
  subseq l m -> (List.length l <= List.length m)%nat.
Proof.
  induction 1; simpl; lia.
Qed.

Lemma subseq_In {A : Type} (l m : list A) (x : A) :
  subseq l m -> In x l -> In x m.
Proof.
  induction 1 as [| y l m H IH | y l m H IH]; simpl; intros Hx.
  - exact Hx.
  - right. now apply IH.
  - destruct Hx as [-> | Hx]; [now left | right; now apply IH].
Qed.

Lemma subseq_NoDup {A : Type} (l m : list A) :
  subseq l m -> NoDup m -> NoDup l.
Proof.
  induction 1 as [| y l m H IH | y l m H IH]; intros N.
  - exact N.
  - inversion N; subst. now apply IH.
  - inversion N as [| ? ? Hy Hm]; subst. constructor.
    + intros Hl. apply Hy. eapply subseq_In; eassumption.
    + now apply IH.
Qed.

Lemma NoDup_constant {A : Type} (l : list A) (a : A) :
  NoDup l -> (forall x, In x l -> x = a) -> (List.length l <= 1)%nat.
Proof.
  intros N H.
  destruct l as [| x [| y l]]; simpl; try lia.
  exfalso. inversion N as [| ? ? Hx _]; subst. apply Hx.
  rewrite (H x), <- (H y); simpl; auto.
Qed.

Lemma filter_eqb_absent (x : Z) (l : list Z) :
  ~ In x l -> filter (Z.eqb x) l = [].
Proof.
  induction l as [| y l IH]; intros H; [reflexivity |]. simpl.
  destruct (Z.eqb_spec x y) as [-> | _].
  - elim H. now left.
  - apply IH. intros Hin. apply H. now right.
Qed.

Lemma count_in_NoDup (x : Z) (l : list Z) :
  NoDup l -> In x l -> List.length (filter (Z.eqb x) l) = 1%nat.
Proof.
  induction l as [| y l IH]; intros N Hx; [contradiction |].
  inversion N as [| ? ? Hy Hl]; subst. simpl.
  destruct (Z.eqb_spec x y) as [-> | Ne].
  - now rewrite (filter_eqb_absent _ _ Hy).
  - destruct Hx as [-> | Hx]; [now elim Ne |]. now apply IH.
Qed.

(** ** The collection through the steps of [list] *)

Section list_collection.
Import models orm serializer views views.ServerListViewSet.

Variable int : string -> option Z.
Variable db_order : QuerySet -> QuerySet.
Variable limit_refused : Z -> bool.
Hypothesis db_order_permutation : forall qs, Permutation (db_order qs) qs.

Lemma list_from_queryset_at_serializer (request : Request)
  (objects : Datatypes.list Server) :
  list int db_order limit_refused request objects =
  (rows <- queryset_at_serializer int db_order limit_refused
             request objects ;;
   Ok (map (ServerSerializer
              (Py.eq_str (get "with_num_members" (query_params request))
                         "true")) rows)).
Proof.
  rewrite list_from_queryset_at_qty. unfold queryset_at_serializer.
  destruct (queryset_at_qty int request objects); cbn [bind];
    [| reflexivity].
  now destruct (if_qty int _).
Qed.

Lemma category_step_all (category : option string)
  (objects : Datatypes.list Server) :
  if_category category (queryset objects) =
  Ok (all (filter
             (fun s =>
                match category with
                | Some c => if Py.truthy category
                            then String.eqb (category_name (server_category s)) c
                            else true
                | None => true
                end) objects)).
Proof.
  rewrite if_category_Ok. f_equal. unfold queryset.
  destruct category as [c |]; [destruct (Py.truthy (Some c)) |].
  - unfold filter_category__name, all.
    induction objects as [| s objects IH]; [reflexivity |]. simpl.
    destruct (String.eqb _ c); simpl; now rewrite IH.
  - f_equal. induction objects as [| s objects IH]; simpl; congruence.
  - f_equal. induction objects as [| s objects IH]; simpl; congruence.
Qed.

Lemma instances_all (objects : Datatypes.list Server) :
  map instance (all objects) = objects.
Proof.
  unfold all. rewrite map_map. simpl. apply map_id.
Qed.

Lemma instances_filter_member (user_id : Z)
  (objects : Datatypes.list Server) :
  map instance (filter_member user_id (all objects))
  = filter (fun s => existsb (Z.eqb user_id) (server_member s)) objects.
Proof.
  unfold filter_member, all.
  induction objects as [| s objects IH]; [reflexivity |]. simpl.
  destruct (existsb _ (server_member s)); simpl; now rewrite IH.
Qed.

Lemma instances_annotate (qs : QuerySet) :
  map instance (annotate_num_members qs) = map instance qs.
Proof.
  unfold annotate_num_members. rewrite map_map. reflexivity.
Qed.

Lemma instances_filter_id (n : Z) (qs : QuerySet) :
  subseq (map instance (filter_id n qs)) (map instance qs).
Proof.
  apply subseq_map, subseq_filter.
Qed.

(** The joined rows of a row of [Server.objects.all()] are its server's
    members; after [filter(member=user_id)] they are the rows that name
    the user, and there is one. *)
Lemma joined_all (objects : Datatypes.list Server) (r : Row) :
  In r (all objects) ->
  joined_member r = server_member (instance r) /\ num_members r = None.
Proof.
  unfold all. intros H. apply in_map_iff in H as (s & <- & _). now split.
Qed.

Lemma joined_filter_member (user_id : Z) (objects : Datatypes.list Server)
  (r : Row) :
  In r (filter_member user_id (all objects)) ->
  joined_member r = filter (Z.eqb user_id) (server_member (instance r)) /\
  In user_id (server_member (instance r)) /\
  num_members r = None.
Proof.
  unfold filter_member. intros H.
  apply in_map_iff in H as (r0 & <- & H0).
  apply filter_In in H0 as [H0 E].
  destruct (joined_all _ _ H0) as [J N]. simpl. rewrite J in *.
  split; [reflexivity |]. split; [| exact N].
  apply existsb_exists in E as (x & Hx & Ex).
  apply Z.eqb_eq in Ex. now subst x.
Qed.

Lemma annotated_rows (qs : QuerySet) (r : Row) :
  In r (annotate_num_members qs) ->
  exists r0, In r0 qs /\ instance r = instance r0 /\
             joined_member r = joined_member r0 /\
             num_members r = Some (Z.of_nat (List.length (joined_member r0))).
Proof.
  unfold annotate_num_members. intros H.
  apply in_map_iff in H as (r0 & <- & H0).
  exists r0. now repeat split.
Qed.

(** The collection at line 103, by cases on the [by_user] flag and the
    requester. *)
Lemma queryset_at_by_serverid_cases (request : Request)
  (objects : Datatypes.list Server) :
  let selected :=
    filter (fun s =>
              match get "category" (query_params request) with
              | Some c =>
                  if Py.truthy (get "category" (query_params request))
                  then String.eqb (category_name (server_category s)) c
                  else true
              | None => true
              end) objects in
  let annotate := fun qs =>
    if Py.eq_str (get "with_num_members" (query_params request)) "true"
    then annotate_num_members qs else qs in
  queryset_at_by_serverid request objects =
  if Py.eq_str (get "by_user" (query_params request)) "true" then
    match user request with
    | AuthenticatedUser user_id =>
        Ok (annotate (filter_member user_id (all selected)))
    | AnonymousUser => Raise AuthenticationFailed
    end
  else Ok (annotate (all selected)).
Proof.
  intros selected annotate. unfold queryset_at_by_serverid.
  rewrite category_step_all. cbn [bind]. fold selected.
  destruct (Py.eq_str (get "by_user" (query_params request)) "true");
    [destruct (user request) |]; cbn [if_by_user is_authenticated andb bind];
    try reflexivity; now rewrite if_with_num_members_Ok.
Qed.

Lemma if_by_serverid_subseq (v : option string) (u : User)
  (qs qs' : QuerySet) :
  if_by_serverid int v u qs = Ok qs' -> subseq qs' qs.
Proof.
  unfold if_by_serverid, try_serverid.
  destruct v as [value |]; [| intros [= <-]; apply subseq_refl].
  destruct (Py.truthy (Some value)); [| intros [= <-]; apply subseq_refl].
  destruct (is_authenticated u); simpl; [| discriminate].
  destruct (int value) as [n |]; simpl; [| discriminate].
  destruct (exists_ (filter_id n qs)); simpl; [| discriminate].
  intros [= <-]. apply subseq_filter.
Qed.

Lemma fetch_length (limit : option Z) (qs rows : QuerySet) :
  fetch db_order limit_refused limit qs = Ok rows ->
  (List.length rows <= List.length qs)%nat.
Proof.
  unfold fetch. destruct limit as [n |].
  - destruct (limit_refused n); [discriminate |].
    intros [= <-]. rewrite length_firstn.
    rewrite (db_order_length db_order db_order_permutation). lia.
  - intros [= <-].
    rewrite (db_order_length db_order db_order_permutation). lia.
Qed.

(** The rows the serializer reads are rows of the collection that the
    [by_serverid] step left, which is part of the collection at line
    103. *)
Lemma queryset_at_serializer_rows (request : Request)
  (objects : Datatypes.list Server) (rows : QuerySet) :
  queryset_at_serializer int db_order limit_refused request objects
  = Ok rows ->
  exists q3 q4,
    queryset_at_by_serverid request objects = Ok q3 /\
    queryset_at_qty int request objects = Ok q4 /\
    subseq q4 q3 /\
    (forall r, In r rows -> In r q4) /\
    (List.length rows <= List.length q4)%nat.
Proof.
  unfold queryset_at_serializer, queryset_at_qty.
  destruct (queryset_at_by_serverid request objects) as [q3 |];
    cbn [bind]; [| discriminate].
  destruct (if_by_serverid int _ _ _) as [q4 |] eqn:E4; cbn [bind];
    [| discriminate].
  destruct (if_qty int _) as [limit |]; cbn [bind]; [| discriminate].
  intros E5. exists q3, q4.
  split; [reflexivity |]. split; [reflexivity |].
  split; [eapply if_by_serverid_subseq; exact E4 |].
  split.
  - eapply fetch_keeps; [exact db_order_permutation | exact E5].
  - eapply fetch_length; exact E5.
Qed.

End list_collection.

(** ** Which request raises what *)

Section list_errors.
Import models orm serializer views views.ServerListViewSet.

Variable int : string -> option Z.
Variable db_order : QuerySet -> QuerySet.
Variable limit_refused : Z -> bool.

Lemma queryset_at_by_serverid_raises (request : Request)
  (objects : Datatypes.list Server) (e : Exception) :
  queryset_at_by_serverid request objects = Raise e ->
  e = AuthenticationFailed /\
  is_authenticated (user request) = false /\
  Py.eq_str (get "by_user" (query_params request)) "true" = true.
Proof.
  pose proof (queryset_at_by_serverid_cases request objects) as C.
  cbv zeta in C. rewrite C.
  destruct (Py.eq_str (get "by_user" (query_params request)) "true");
    [| discriminate].
  destruct (user request); [| discriminate].
  intros [= <-]. now repeat split.
Qed.

Lemma if_by_serverid_raise_cases (v : option string) (u : User)
  (qs : QuerySet) (e : Exception) :
  if_by_serverid int v u qs = Raise e ->
  (is_authenticated u = false /\ Py.truthy v = true /\
   e = AuthenticationFailed) \/
  (is_authenticated u = true /\
   exists value, v = Some value /\ value <> "" /\
     ((int value = None /\ e = ValidationError "Server value error") \/
      (exists n, int value = Some n /\ filter_id n qs = [] /\
                 e = ValidationError
                       ("Server with id " ++ value ++ " not found.")))).
Proof.
  destruct v as [value |]; [| discriminate].
  destruct (Py.truthy (Some value)) eqn:T;
    [| unfold if_by_serverid; rewrite T; discriminate].
  destruct (is_authenticated u) eqn:A.
  - pose proof (proj1 (truthy_Some value) T) as N.
    rewrite if_by_serverid_authenticated by assumption.
    intros H. right. split; [reflexivity |].
    exists value. split; [reflexivity |]. split; [exact N |].
    destruct (int value) as [n |].
    + right. exists n. split; [reflexivity |].
      destruct (filter_id n qs); [| discriminate].
      injection H as <-. now split.
    + left. injection H as <-. now split.
  - rewrite if_by_serverid_anonymous by assumption.
    intros [= <-]. left. now repeat split.
Qed.

Lemma if_qty_raise_cases (v : option string) (e : Exception) :
  if_qty int v = Raise e ->
  e = ValueError /\
  exists value, v = Some value /\ value <> "" /\
    (int value = None \/ exists n, int value = Some n /\ n < 0).
Proof.
  unfold if_qty.
  destruct v as [value |]; [| discriminate].
  destruct (Py.truthy (Some value)) eqn:T; [| discriminate].
  apply truthy_Some in T.
  intros H.
  assert (e = ValueError) as -> by
    (destruct (int value) as [n |]; [destruct (n <? 0) |]; congruence).
  split; [reflexivity |].
  exists value. split; [reflexivity |]. split; [exact T |].
  destruct (int value) as [n |]; [| now left].
  right. exists n. split; [reflexivity |].
  destruct (Z.ltb_spec n 0); [assumption | discriminate].
Qed.

Lemma if_qty_Ok_cases (v : option string) (limit : option Z) :
  if_qty int v = Ok limit ->
  (limit = None /\ Py.truthy v = false) \/
  (exists value n, v = Some value /\ value <> "" /\ int value = Some n /\
                   0 <= n /\ limit = Some n).
Proof.
  unfold if_qty.
  destruct v as [value |]; [| intros [= <-]; now left].
  destruct (Py.truthy (Some value)) eqn:T; [| intros [= <-]; now left].
  apply truthy_Some in T.
  destruct (int value) as [n |] eqn:P; [| discriminate].
  destruct (Z.ltb_spec n 0); [discriminate |].
  intros [= <-]. right. exists value, n. now repeat split.
Qed.

Lemma fetch_raise_cases (limit : option Z) (qs : QuerySet)
  (e : Exception) :
  fetch db_order limit_refused limit qs = Raise e ->
  e = DatabaseError /\ exists n, limit = Some n /\ limit_refused n = true.
Proof.
  unfold fetch. destruct limit as [n |]; [| discriminate].
  destruct (limit_refused n) eqn:L; [| discriminate].
  intros [= <-]. split; [reflexivity |]. now exists n.
Qed.

(** An exception of [list] comes from the steps up to line 101, from the
    [by_serverid] step, from the slice, or from the database when the
    query runs. *)
Lemma list_raise_cases (request : Request)
  (objects : Datatypes.list Server) (e : Exception) :
  list int db_order limit_refused request objects = Raise e ->
  queryset_at_by_serverid request objects = Raise e \/
  (exists q3, queryset_at_by_serverid request objects = Ok q3 /\
              if_by_serverid int (get "by_serverid" (query_params request))
                (user request) q3 = Raise e) \/
  (exists q4, queryset_at_qty int request objects = Ok q4 /\
              if_qty int (get "qty" (query_params request)) = Raise e) \/
  (exists q4 limit,
      queryset_at_qty int request objects = Ok q4 /\
      if_qty int (get "qty" (query_params request)) = Ok limit /\
      fetch db_order limit_refused limit q4 = Raise e).
Proof.
  rewrite list_from_queryset_at_qty. unfold queryset_at_qty.
  destruct (queryset_at_by_serverid request objects) as [q3 | e3];
    cbn [bind]; [| intros [= <-]; now left].
  destruct (if_by_serverid int _ _ q3) as [q4 | e4] eqn:E4; cbn [bind].
  - destruct (if_qty int _) as [limit | e5] eqn:E5; cbn [bind].
    + destruct (fetch db_order limit_refused limit q4) as [rows | e6] eqn:E6;
        cbn [bind]; [discriminate |].
      intros [= <-]. right. right. right. exists q4, limit. now repeat split.
    + intros [= <-]. right. right. left. exists q4. now split.
  - intros [= <-]. right. left. exists q3. now split.
Qed.

(** No step of [list] but the two checks raises
    [AuthenticationFailed], and none but the [by_serverid] step raises
    [ValidationError]. *)
Lemma list_raise_sources (request : Request)
  (objects : Datatypes.list Server) (e : Exception) :
  e <> ValueError -> e <> DatabaseError ->
  list int db_order limit_refused request objects = Raise e ->
  queryset_at_by_serverid request objects = Raise e \/
  (exists q3, queryset_at_by_serverid request objects = Ok q3 /\
              if_by_serverid int (get "by_serverid" (query_params request))
                (user request) q3 = Raise e).
Proof.
  intros N1 N2 H.
  apply list_raise_cases in H
    as [H | [H | [(q4 & _ & H) | (q4 & limit & _ & _ & H)]]].
  - now left.
  - now right.
  - apply if_qty_raises in H. contradiction.
  - apply fetch_raises in H. contradiction.
Qed.

(** X1. [list] raises [AuthenticationFailed] exactly for an anonymous
    requester whose [by_user] is the string [true] or whose [by_serverid]
    is present and not empty; it never raises it for an authenticated
    requester. *)
Theorem authentication_failed_iff (request : Request)
  (objects : Datatypes.list Server) :
  list int db_order limit_refused request objects = Raise AuthenticationFailed <->
  is_authenticated (user request) = false /\
  (get "by_user" (query_params request) = Some "true" \/
   Py.truthy (get "by_serverid" (query_params request)) = true).
Proof.
  split.
  - intros H.
    apply list_raise_sources in H as [H | (q3 & _ & H)]; try discriminate.
    + apply queryset_at_by_serverid_raises in H as (_ & A & B).
      split; [exact A |]. left. now apply eq_str_true.
    + apply if_by_serverid_raise_cases in H
        as [(A & T & _) | (_ & value & _ & _ & [[_ H] | (n & _ & _ & H)])];
        try discriminate H.
      split; [exact A | now right].
  - intros [A H].
    rewrite list_from_queryset_at_qty. unfold queryset_at_qty.
    pose proof (queryset_at_by_serverid_cases request objects) as C.
    cbv zeta in C. rewrite C.
    destruct (user request) as [| id] eqn:U; [| discriminate].
    destruct (Py.eq_str (get "by_user" (query_params request)) "true") eqn:B;
      [reflexivity |].
    destruct H as [H | H]; [apply eq_str_true in H; congruence |].
    cbn [bind]. now rewrite if_by_serverid_anonymous.
Qed.

(** X2. A [ValidationError] of [list] comes from the [by_serverid] step
    only: the requester is authenticated, [by_serverid] is present and not
    empty, and the detail is [Server value error] when [int] refuses the
    value and [Server with id <value> not found.] when it reads it. *)
Theorem validation_error_source (request : Request)
  (objects : Datatypes.list Server) (detail : string) :
  list int db_order limit_refused request objects = Raise (ValidationError detail) ->
  is_authenticated (user request) = true /\
  exists value,
    get "by_serverid" (query_params request) = Some value /\
    value <> "" /\
    ((int value = None /\ detail = "Server value error") \/
     (exists n, int value = Some n /\
                detail = "Server with id " ++ value ++ " not found.")).
Proof.
  intros H.
  apply list_raise_sources in H as [H | (q3 & _ & H)]; try discriminate.
  - apply queryset_at_by_serverid_raises in H as (H & _). discriminate.
  - apply if_by_serverid_raise_cases in H
      as [(_ & _ & H) | (A & value & G & N & H)]; [discriminate |].
    split; [exact A |]. exists value. split; [exact G |]. split; [exact N |].
    destruct H as [[P H] | (n & P & _ & H)]; injection H as ->.
    + now left.
    + right. now exists n.
Qed.

(** X3. [int(qty)], the slice and the query are not guarded. [list]
    lets a [ValueError] escape exactly when the earlier steps raise nothing
    and [qty] is present, not empty, and either refused by [int] or read
    as a negative number. It lets the database's error escape exactly
    when the earlier steps raise nothing and [int] reads [qty] as a
    number, not negative, that the database refuses as a limit. *)
Theorem qty_errors_escape (request : Request)
  (objects : Datatypes.list Server) :
  (list int db_order limit_refused request objects = Raise ValueError <->
   exists qs value,
     queryset_at_qty int request objects = Ok qs /\
     get "qty" (query_params request) = Some value /\ value <> "" /\
     (int value = None \/ exists n, int value = Some n /\ n < 0)) /\
  (list int db_order limit_refused request objects = Raise DatabaseError <->
   exists qs value n,
     queryset_at_qty int request objects = Ok qs /\
     get "qty" (query_params request) = Some value /\ value <> "" /\
     int value = Some n /\ 0 <= n /\ limit_refused n = true).
Proof.
  assert (forall e, e = ValueError \/ e = DatabaseError ->
            list int db_order limit_refused request objects = Raise e ->
            (exists q4, queryset_at_qty int request objects = Ok q4 /\
                        if_qty int (get "qty" (query_params request))
                        = Raise e) \/
            (exists q4 limit,
                queryset_at_qty int request objects = Ok q4 /\
                if_qty int (get "qty" (query_params request)) = Ok limit /\
                fetch db_order limit_refused limit q4 = Raise e)) as Q.
  { intros e He H.
    apply list_raise_cases in H as [H | [(q3 & _ & H) | [H | H]]];
      [| | now left | now right].
    - apply queryset_at_by_serverid_raises in H as (-> & _).
      destruct He; discriminate.
    - apply if_by_serverid_raise_cases in H
        as [(_ & _ & ->) | (_ & value & _ & _ & [[_ ->] | (n & _ & _ & ->)])];
        destruct He; discriminate. }
  split; split.
  - intros H.
    destruct (Q _ (or_introl eq_refl) H)
      as [(q4 & E & R) | (q4 & limit & _ & _ & R)].
    + apply if_qty_raise_cases in R as (_ & value & G & N & C).
      exists q4, value. now repeat split.
    + apply fetch_raises in R. discriminate.
  - intros (qs & value & E & G & N & C).
    rewrite list_from_queryset_at_qty, E. cbn [bind].
    unfold if_qty. apply truthy_Some in N. rewrite G, N.
    destruct C as [-> | (n & -> & L)]; [reflexivity |].
    destruct (Z.ltb_spec n 0); [reflexivity | lia].
  - intros H.
    destruct (Q _ (or_intror eq_refl) H)
      as [(q4 & _ & R) | (q4 & limit & E & O & R)].
    + apply if_qty_raises in R. discriminate.
    + apply fetch_raise_cases in R as (_ & n & -> & L).
      apply if_qty_Ok_cases in O
        as [[O _] | (value & n' & G & N & P & Hn & [= <-])];
        [discriminate |].
      exists q4, value, n. now repeat split.
  - intros (qs & value & n & E & G & N & P & Hn & L).
    rewrite list_from_queryset_at_qty, E. cbn [bind].
    unfold if_qty. apply truthy_Some in N. rewrite G, N, P.
    destruct (Z.ltb_spec n 0); [lia |]. cbn [bind fetch].
    now rewrite L.
Qed.

End list_errors.

(** ** What [list] returns *)

Section list_results.
Import models orm serializer views views.ServerListViewSet.

Variable int : string -> option Z.
Variable db_order : QuerySet -> QuerySet.
Variable limit_refused : Z -> bool.
Hypothesis db_order_permutation : forall qs, Permutation (db_order qs) qs.

Lemma instances_if_annotate (with_num_members : bool) (qs : QuerySet) :
  map instance (if with_num_members then annotate_num_members qs else qs)
  = map instance qs.
Proof.
  destruct with_num_members; [apply instances_annotate | reflexivity].
Qed.

Lemma in_category_iff (category : option string) (s : Server) :
  match category with
  | Some c => if Py.truthy category
              then String.eqb (category_name (server_category s)) c
              else true
  | None => true
  end = true <->
  (forall c, category = Some c -> c <> "" ->
             category_name (server_category s) = c).
Proof.
  destruct category as [c |]; [| split; [discriminate | reflexivity]].
  destruct (Py.truthy (Some c)) eqn:T.
  - rewrite String.eqb_eq. apply truthy_Some in T. split.
    + now intros E c' [= <-] _.
    + intros H. now apply H.
  - split; [| reflexivity].
    intros _ c' [= <-] N. apply truthy_Some in N. congruence.
Qed.

(** X4. When line 103 is reached, the collection holds exactly the
    servers of the base collection that pass the filters asked for: those
    of the given category when [category] is present and not empty, and
    those the requester is a member of when [by_user] is [true]. *)
Theorem filters_select (request : Request)
  (objects : Datatypes.list Server) (qs : QuerySet) :
  queryset_at_by_serverid request objects = Ok qs ->
  forall s, In s (map instance qs) <->
    In s objects /\
    (forall c, get "category" (query_params request) = Some c -> c <> "" ->
               category_name (server_category s) = c) /\
    (get "by_user" (query_params request) = Some "true" ->
     exists user_id, user request = AuthenticatedUser user_id /\
                     In user_id (server_member s)).
Proof.
  pose proof (queryset_at_by_serverid_cases request objects) as C.
  cbv zeta in C. rewrite C. clear C.
  destruct (Py.eq_str (get "by_user" (query_params request)) "true") eqn:B.
  - destruct (user request) as [| user_id]; [discriminate |].
    intros [= <-].
    rewrite instances_if_annotate, instances_filter_member.
    intros s. rewrite !filter_In, in_category_iff, existsb_exists.
    apply eq_str_true in B. split.
    + intros [[Hs Hc] (x & Hx & Ex)]. apply Z.eqb_eq in Ex. subst x.
      split; [exact Hs |]. split; [exact Hc |].
      intros _. now exists user_id.
    + intros (Hs & Hc & Hu).
      destruct (Hu B) as (u & [= <-] & Hin).
      split; [now split |].
      exists user_id. split; [exact Hin | apply Z.eqb_refl].
  - intros [= <-].
    rewrite instances_if_annotate, instances_all.
    intros s. rewrite filter_In, in_category_iff. split.
    + intros [Hs Hc]. split; [exact Hs |]. split; [exact Hc |].
      intros G. apply eq_str_true in G. congruence.
    + intros (Hs & Hc & _). now split.
Qed.

(** The collection at line 103 is a selection from the base collection:
    no server is in it more often than in the base. *)
Lemma queryset_at_by_serverid_instances (request : Request)
  (objects : Datatypes.list Server) (q3 : QuerySet) :
  queryset_at_by_serverid request objects = Ok q3 ->
  subseq (map instance q3) objects.
Proof.
  intros E3.
  pose proof (queryset_at_by_serverid_cases request objects) as C.
  cbv zeta in C. rewrite C in E3. clear C.
  destruct (Py.eq_str (get "by_user" (query_params request)) "true").
  - destruct (user request) as [| user_id]; [discriminate |].
    injection E3 as <-.
    rewrite instances_if_annotate, instances_filter_member.
    eapply subseq_trans; apply subseq_filter.
  - injection E3 as <-.
    rewrite instances_if_annotate, instances_all. apply subseq_filter.
Qed.

(** X5. Every record [list] serializes is a server of the base
    collection, and a response never has more records than the base
    collection has servers. *)
Theorem records_from_base (request : Request)
  (objects : Datatypes.list Server) :
  (forall rows,
      queryset_at_serializer int db_order limit_refused request objects
      = Ok rows ->
      (forall r, In r rows -> In (instance r) objects) /\
      (List.length rows <= List.length objects)%nat) /\
  (forall data,
      list int db_order limit_refused request objects = Ok data ->
      exists rows,
        queryset_at_serializer int db_order limit_refused request objects
        = Ok rows /\
        List.length data = List.length rows /\
        (List.length data <= List.length objects)%nat).
Proof.
  assert (forall rows,
      queryset_at_serializer int db_order limit_refused request objects
      = Ok rows ->
      (forall r, In r rows -> In (instance r) objects) /\
      (List.length rows <= List.length objects)%nat) as K.
  { intros rows H.
    destruct (queryset_at_serializer_rows int db_order limit_refused
                db_order_permutation _ _ _ H)
      as (q3 & q4 & E3 & _ & S & Hin & Hlen).
    pose proof (queryset_at_by_serverid_instances _ _ _ E3) as S3.
    split.
    - intros r Hr. apply (subseq_In _ _ _ S3).
      apply in_map. apply (subseq_In _ _ _ S). now apply Hin.
    - apply subseq_length in S. apply subseq_length in S3.
      rewrite length_map in S3. lia. }
  split; [exact K |].
  intros data. rewrite list_from_queryset_at_serializer.
  destruct (queryset_at_serializer int db_order limit_refused
              request objects) as [rows |] eqn:E;
    cbn [bind]; [| discriminate].
  intros [= <-]. exists rows. split; [reflexivity |].
  rewrite length_map. split; [reflexivity |].
  now apply K.
Qed.

(** X6. When [by_serverid] is present, not empty and read by [int] as
    [n], every record of a successful response is a server with
    identifier [n]; when identifiers are unique in the base collection
    there is at most one. *)
Theorem by_serverid_selects_one (request : Request)
  (objects : Datatypes.list Server) (value : string) (n : Z)
  (qs : QuerySet) :
  get "by_serverid" (query_params request) = Some value ->
  value <> "" ->
  int value = Some n ->
  queryset_at_serializer int db_order limit_refused request objects
  = Ok qs ->
  (forall r, In r qs -> server_id (instance r) = n) /\
  (NoDup (map server_id objects) -> (List.length qs <= 1)%nat).
Proof.
  intros G N P H.
  destruct (queryset_at_serializer_rows int db_order limit_refused
              db_order_permutation _ _ _ H)
    as (q3 & q4 & E3 & E4 & S & Hin & Hlen).
  assert (forall r, In r q4 -> server_id (instance r) = n) as K.
  { unfold queryset_at_qty in E4. rewrite E3, G in E4. cbn [bind] in E4.
    destruct (is_authenticated (user request)) eqn:A.
    - rewrite if_by_serverid_authenticated, P in E4 by assumption.
      destruct (exists_ (filter_id n q3)); [| discriminate].
      injection E4 as <-.
      intros r Hr. apply filter_In in Hr as [_ Hid]. now apply Z.eqb_eq.
    - rewrite if_by_serverid_anonymous in E4;
        [discriminate | exact A | now apply truthy_Some]. }
  split; [intros r Hr; now apply K, Hin |].
  intros D.
  apply Nat.le_trans with (m := List.length q4); [exact Hlen |].
  rewrite <- (length_map (fun r => server_id (instance r)) q4).
  apply NoDup_constant with (a := n).
  - apply subseq_NoDup with (m := map server_id objects); [| exact D].
    rewrite <- map_map. apply subseq_map.
    apply subseq_trans with (m := map instance q3).
    + now apply subseq_map.
    + exact (queryset_at_by_serverid_instances _ _ _ E3).
  - intros x Hx. apply in_map_iff in Hx as (r & <- & Hr). now apply K.
Qed.

End list_results.

(** ** The annotation, the parameters read, the slice *)

Section list_annotation.
Import models orm serializer views views.ServerListViewSet.

Variable int : string -> option Z.
Variable db_order : QuerySet -> QuerySet.
Variable limit_refused : Z -> bool.
Hypothesis db_order_permutation : forall qs, Permutation (db_order qs) qs.

Lemma rows_at_serializer (request : Request)
  (objects : Datatypes.list Server) (qs : QuerySet) :
  queryset_at_serializer int db_order limit_refused request objects
  = Ok qs ->
  exists q3, queryset_at_by_serverid request objects = Ok q3 /\
             forall r, In r qs -> In r q3.
Proof.
  intros H.
  destruct (queryset_at_serializer_rows int db_order limit_refused
              db_order_permutation _ _ _ H)
    as (q3 & q4 & E3 & _ & S & Hin & _).
  exists q3. split; [exact E3 |].
  intros r Hr. apply (subseq_In _ _ _ S). now apply Hin.
Qed.

(** X7. Without [with_num_members=true] no record carries the
    annotation. With it, and without [by_user=true], every record is
    annotated with the number of members of its server. *)
Theorem annotation_counts_members (request : Request)
  (objects : Datatypes.list Server) (qs : QuerySet) :
  queryset_at_serializer int db_order limit_refused request objects
  = Ok qs ->
  (get "with_num_members" (query_params request) <> Some "true" ->
   forall r, In r qs -> num_members r = None) /\
  (get "with_num_members" (query_params request) = Some "true" ->
   get "by_user" (query_params request) <> Some "true" ->
   forall r, In r qs ->
     num_members r
     = Some (Z.of_nat (List.length (server_member (instance r))))).
Proof.
  intros H. destruct (rows_at_serializer _ _ _ H) as (q3 & E3 & Sub).
  pose proof (queryset_at_by_serverid_cases request objects) as C.
  cbv zeta in C. rewrite C in E3. clear C.
  split.
  - intros W r Hr. apply Sub in Hr.
    destruct (Py.eq_str (get "with_num_members" (query_params request))
                        "true") eqn:Ew;
      [apply eq_str_true in Ew; congruence |].
    destruct (Py.eq_str (get "by_user" (query_params request)) "true").
    + destruct (user request) as [| user_id]; [discriminate |].
      injection E3 as <-. now apply joined_filter_member in Hr.
    + injection E3 as <-. now apply joined_all in Hr.
  - intros W B r Hr. apply Sub in Hr.
    apply eq_str_true in W. rewrite W in E3.
    destruct (Py.eq_str (get "by_user" (query_params request)) "true") eqn:Eb;
      [apply eq_str_true in Eb; congruence |].
    injection E3 as <-.
    apply annotated_rows in Hr as (r0 & H0 & Hi & _ & Hn).
    apply joined_all in H0 as [J _]. now rewrite Hn, Hi, J.
Qed.

(** X8. With [by_user=true] and [with_num_members=true], every record is
    a server the requester belongs to, and its annotation counts the rows
    of the relation that name the requester, not all the members: it is 1
    when the relation holds each member once. *)
Theorem annotation_after_by_user (request : Request)
  (objects : Datatypes.list Server) (qs : QuerySet) :
  get "by_user" (query_params request) = Some "true" ->
  get "with_num_members" (query_params request) = Some "true" ->
  queryset_at_serializer int db_order limit_refused request objects
  = Ok qs ->
  exists user_id,
    user request = AuthenticatedUser user_id /\
    forall r, In r qs ->
      In user_id (server_member (instance r)) /\
      num_members r
      = Some (Z.of_nat (List.length (filter (Z.eqb user_id)
                                            (server_member (instance r))))) /\
      (NoDup (server_member (instance r)) -> num_members r = Some 1).
Proof.
  intros B W H. destruct (rows_at_serializer _ _ _ H) as (q3 & E3 & Sub).
  pose proof (queryset_at_by_serverid_cases request objects) as C.
  cbv zeta in C. rewrite C in E3. clear C.
  apply eq_str_true in B, W. rewrite B, W in E3.
  destruct (user request) as [| user_id]; [discriminate |].
  injection E3 as <-.
  exists user_id. split; [reflexivity |].
  intros r Hr. apply Sub in Hr.
  apply annotated_rows in Hr as (r0 & H0 & Hi & _ & Hn).
  apply joined_filter_member in H0 as (J & M & _).
  rewrite Hi, Hn, J. split; [exact M |]. split; [reflexivity |].
  intros D. now rewrite (count_in_NoDup _ _ D M).
Qed.

(** X9. [list] reads the requester and the five parameters that
    [server_list_docs] documents, and nothing else of the request: two
    requests by the same requester that agree on those parameters get the
    same answer. *)
Theorem list_reads_documented_parameters (request request' : Request)
  (objects : Datatypes.list Server) :
  user request = user request' ->
  (forall p, In p schema.server_list_docs ->
             get (schema.name p) (query_params request)
             = get (schema.name p) (query_params request')) ->
  list int db_order limit_refused request objects
  = list int db_order limit_refused request' objects.
Proof.
  intros U H. unfold schema.server_list_docs in H.
  pose proof (H _ (or_introl eq_refl)) as E1.
  pose proof (H _ (or_intror (or_introl eq_refl))) as E2.
  pose proof (H _ (or_intror (or_intror (or_introl eq_refl)))) as E3.
  pose proof (H _ (or_intror (or_intror (or_intror (or_introl eq_refl)))))
    as E4.
  pose proof (H _ (or_intror (or_intror (or_intror (or_intror
                     (or_introl eq_refl)))))) as E5.
  cbn [schema.name] in E1, E2, E3, E4, E5.
  unfold list. now rewrite U, E1, E2, E3, E4, E5.
Qed.

(** X10. A [qty] that [int] reads as a number at least the size of the
    collection, and that the database accepts as a limit, cuts nothing:
    the response holds every record that the earlier steps left, in the
    order the database returns them. *)
Theorem qty_beyond_size (request : Request)
  (objects : Datatypes.list Server) (value : string) (n : Z)
  (qs : QuerySet) :
  get "qty" (query_params request) = Some value ->
  int value = Some n ->
  Z.of_nat (List.length qs) <= n ->
  limit_refused n = false ->
  queryset_at_qty int request objects = Ok qs ->
  queryset_at_serializer int db_order limit_refused request objects
  = Ok (db_order qs) /\
  list int db_order limit_refused request objects
  = Ok (map (ServerSerializer
               (Py.eq_str (get "with_num_members" (query_params request))
                          "true")) (db_order qs)).
Proof.
  intros G P L R E.
  assert (queryset_at_serializer int db_order limit_refused request objects
          = Ok (db_order qs)) as S.
  { unfold queryset_at_serializer. rewrite E, G. cbn [bind].
    unfold if_qty. destruct (Py.truthy (Some value)); [| reflexivity].
    rewrite P. destruct (Z.ltb_spec n 0); [lia |]. cbn [bind fetch].
    rewrite R, firstn_all2; [reflexivity |].
    rewrite (db_order_length db_order db_order_permutation). lia. }
  split; [exact S |].
  now rewrite list_from_queryset_at_serializer, S.
Qed.

End list_annotation.

(** ** The two flags *)

Section list_flags.
Import models orm serializer views views.ServerListViewSet.

Variable int : string -> option Z.
Variable db_order : QuerySet -> QuerySet.
Variable limit_refused : Z -> bool.
Hypothesis db_order_permutation : forall qs, Permutation (db_order qs) qs.

Lemma has_key_num_members (flag : bool) (r : Row) :
  has_key "num_members" (ServerSerializer flag r) = flag.
Proof.
  now destruct flag.
Qed.

(** C4. [list] takes [by_user] and [with_num_members] as set exactly when
    the parameter's value is the string [true]; every other value, [True]
    and [1] among them, and an absent parameter count as unset.
    - [by_user]: for an anonymous requester without a [by_serverid], the
      request fails on authentication exactly when [by_user] is [true]; no
      other value triggers the check.
    - [with_num_members]: the rows the serializer reads carry the
      annotation exactly when [with_num_members] is [true], and the
      records of the response hold the [num_members] key exactly then. *)
Theorem flag_set_only_by_literal_true (request : Request)
  (objects : Datatypes.list Server) :
  (is_authenticated (user request) = false ->
   Py.truthy (get "by_serverid" (query_params request)) = false ->
   (list int db_order limit_refused request objects
    = Raise AuthenticationFailed
    <-> get "by_user" (query_params request) = Some "true")) /\
  (forall rows,
      queryset_at_serializer int db_order limit_refused request objects
      = Ok rows ->
      forall r, In r rows ->
        (num_members r <> None
         <-> get "with_num_members" (query_params request) = Some "true")) /\
  (forall data,
      list int db_order limit_refused request objects = Ok data ->
      forall o, In o data ->
        (has_key "num_members" o = true
         <-> get "with_num_members" (query_params request) = Some "true")).
Proof.
  split; [| split].
  - intros A S. split.
    + intros H.
      apply list_raise_sources in H as [H | (q3 & _ & H)]; try discriminate.
      * apply queryset_at_by_serverid_raises in H as (_ & _ & B).
        now apply eq_str_true.
      * rewrite if_by_serverid_falsy in H by exact S. discriminate.
    + intros B. apply eq_str_true in B.
      rewrite list_from_queryset_at_qty. unfold queryset_at_qty.
      pose proof (queryset_at_by_serverid_cases request objects) as C.
      cbv zeta in C. rewrite C, B.
      destruct (user request); [reflexivity | discriminate].
  - intros rows H r Hr.
    destruct (rows_at_serializer int db_order limit_refused
                db_order_permutation _ _ _ H) as (q3 & E3 & Sub).
    apply Sub in Hr.
    pose proof (queryset_at_by_serverid_cases request objects) as C.
    cbv zeta in C. rewrite C in E3. clear C.
    rewrite <- eq_str_true.
    destruct (Py.eq_str (get "with_num_members" (query_params request))
                        "true").
    + assert (exists n, num_members r = Some n) as [n ->].
      { destruct (Py.eq_str (get "by_user" (query_params request)) "true");
          [destruct (user request); [discriminate |] |];
          injection E3 as <-;
          apply annotated_rows in Hr as (r0 & _ & _ & _ & Hn); eauto. }
      split; [reflexivity | discriminate].
    + assert (num_members r = None) as ->.
      { destruct (Py.eq_str (get "by_user" (query_params request)) "true");
          [destruct (user request); [discriminate |] |];
          injection E3 as <-.
        - now apply joined_filter_member in Hr.
        - now apply joined_all in Hr. }
      split; [intros N; now elim N | discriminate].
  - intros data. rewrite list_from_queryset_at_serializer.
    destruct (queryset_at_serializer int db_order limit_refused
                request objects) as [rows |]; cbn [bind]; [| discriminate].
    intros [= <-] o Ho. apply in_map_iff in Ho as (r & <- & _).
    rewrite has_key_num_members. apply eq_str_true.
Qed.

End list_flags.

(** ** File names the extension check passes *)

Section accepted_names.
Import validators.

Lemma join_without_extension (p : string) : fst (p, "") ++ snd (p, "") = p.
Proof.
  simpl. induction p as [| a p IH]; simpl; congruence.
Qed.

Lemma take_drop (n : nat) (p : string) : Py.take n p ++ Py.drop n p = p.
Proof.
  revert p.
  induction n as [| n IH]; intros p; destruct p as [| a p]; simpl;
    try reflexivity.
  now rewrite IH.
Qed.

Lemma splitext_join (p : string) :
  fst (splitext p) ++ snd (splitext p) = p.
Proof.
  unfold splitext.
  destruct (_ >? _); [| apply join_without_extension].
  destruct (only_leading_dots _ _ _); [apply join_without_extension |].
  apply take_drop.
Qed.

Lemma take_not_empty (n : nat) (p : string) :
  (0 < n < String.length p)%nat -> Py.take n p <> "".
Proof.
  destruct n as [| n]; [lia |].
  destruct p as [| a p]; simpl; [lia | discriminate].
Qed.

(** A name with an extension splits at a position inside it. *)
Lemma splitext_with_extension (p : string) :
  snd (splitext p) <> "" ->
  exists d, (0 < d < String.length p)%nat /\
            splitext p = (Py.take d p, Py.drop d p).
Proof.
  pose proof (rfind_range sep p) as Hs.
  pose proof (rfind_range extsep p) as Hd.
  unfold splitext.
  destruct (Z.gtb_spec (Py.rfind extsep p) (Py.rfind sep p)) as [G | _];
    [| now intros []].
  destruct (only_leading_dots p _ _) eqn:L; [now intros [] |].
  intros _.
  destruct (only_leading_dots_false _ _ _ L) as (k & Hk & _).
  exists (Z.to_nat (Py.rfind extsep p)). split; [lia | reflexivity].
Qed.

Lemma lower_app (a b : string) :
  Py.lower (a ++ b) = Py.lower a ++ Py.lower b.
Proof.
  induction a as [| c a IH]; simpl; congruence.
Qed.

Lemma has_char_lower_sep (s : string) :
  Py.has_char sep (Py.lower s) = Py.has_char sep s.
Proof.
  induction s as [| c s IH]; simpl; [reflexivity |].
  now rewrite lower_char_sep, IH.
Qed.

Lemma has_char_app (c : ascii) (a b : string) :
  Py.has_char c (a ++ b) = Py.has_char c a || Py.has_char c b.
Proof.
  induction a as [| x a IH]; simpl; [reflexivity |].
  now rewrite IH, orb_assoc.
Qed.

Lemma rfind_from_app (c : ascii) (a b : string) (i last : Z) :
  Py.rfind_from c (a ++ b) i last
  = Py.rfind_from c b (i + Z.of_nat (String.length a))
      (Py.rfind_from c a i last).
Proof.
  revert i last.
  induction a as [| x a IH]; intros i last.
  - simpl. now rewrite Z.add_0_r.
  - cbn [append Py.rfind_from String.length]. rewrite IH.
    f_equal. lia.
Qed.

(** The last [c] of [a ++ c :: t] is the one in the middle when [t] has
    none. *)
Lemma rfind_app_hit (c : ascii) (a t : string) :
  Py.has_char c t = false ->
  Py.rfind c (a ++ String c t) = Z.of_nat (String.length a).
Proof.
  intros H. unfold Py.rfind. rewrite rfind_from_app.
  cbn [Py.rfind_from]. rewrite Ascii.eqb_refl.
  now rewrite rfind_from_absent.
Qed.

Lemma get_app_l (a b : string) (i : nat) (c : ascii) :
  get i a = Some c -> get i (a ++ b) = Some c.
Proof.
  revert i.
  induction a as [| x a IH]; intros i; simpl; [discriminate |].
  destruct i as [| i]; [trivial | apply IH].
Qed.

Lemma get_length (a : string) (i : nat) (c : ascii) :
  get i a = Some c -> (i < String.length a)%nat.
Proof.
  revert i.
  induction a as [| x a IH]; intros i; simpl; [discriminate |].
  destruct i as [| i]; [lia |]. intros H. apply IH in H. lia.
Qed.

Lemma drop_app (a b : string) : Py.drop (String.length a) (a ++ b) = b.
Proof.
  induction a as [| x a IH]; simpl; [now destruct b | exact IH].
Qed.

(** Each accepted extension is a dot followed by letters. *)
Lemma valid_ext_shape (e : string) :
  In e valid_exts ->
  exists t, e = String extsep t /\
            Py.has_char extsep t = false /\ Py.has_char sep t = false.
Proof.
  unfold valid_exts. simpl.
  intros [<- | [<- | [<- | [<- | [<- | []]]]]];
    eexists; (split; [reflexivity | split; reflexivity]).
Qed.

Lemma in_exts_In (x : string) : in_exts x = true <-> In x valid_exts.
Proof.
  unfold in_exts. rewrite existsb_exists. split.
  - intros (e & He & E). apply String.eqb_eq in E. now subst.
  - intros H. exists x. split; [exact H | apply String.eqb_refl].
Qed.

(** In a name made of a stem without ['/'] that holds a character other
    than ['.'], followed by an accepted extension, [splitext] finds that
    extension. *)
Lemma splitext_stem_ext (stem e : string) :
  In e valid_exts ->
  Py.has_char sep stem = false ->
  (exists i c, get i stem = Some c /\ c <> extsep) ->
  snd (splitext (stem ++ e)) = e.
Proof.
  intros He Hs (i & c & Hg & Hc).
  destruct (valid_ext_shape e He) as (t & -> & Td & Ts).
  assert (Py.rfind extsep (stem ++ String extsep t)
          = Z.of_nat (String.length stem)) as D
    by now apply rfind_app_hit.
  assert (Py.rfind sep (stem ++ String extsep t) = -1) as S.
  { apply rfind_absent. rewrite has_char_app, Hs. simpl. exact Ts. }
  rewrite has_stem_after_last_dot.
  - unfold after_last_dot. rewrite D.
    destruct (Z.ltb_spec (Z.of_nat (String.length stem)) 0); [lia |].
    rewrite Nat2Z.id. apply drop_app.
  - exists (Z.of_nat i), c. rewrite D, S, Nat2Z.id.
    pose proof (get_length _ _ _ Hg).
    split; [lia |]. split; [now apply get_app_l | exact Hc].
Qed.

(** X11. A name that the extension check passes is a root that is not
    empty followed by an extension that, in lower case, is one of the five
    accepted ones. *)
Theorem accepted_name_shape (value : File) :
  validate_image_file_exstention value = Ok tt ->
  exists root ext,
    name value = root ++ ext /\ root <> "" /\
    In (Py.lower ext) valid_exts.
Proof.
  rewrite extension_check_outcomes.
  destruct (in_exts (Py.lower (snd (splitext (name value))))) eqn:I;
    [| discriminate].
  intros _.
  assert (snd (splitext (name value)) <> "") as N
    by (intros E; rewrite E in I; discriminate).
  destruct (splitext_with_extension _ N) as (d & Hd & E).
  exists (Py.take d (name value)), (Py.drop d (name value)).
  split; [symmetry; apply take_drop |].
  split; [now apply take_not_empty |].
  apply in_exts_In. now rewrite E in I.
Qed.

(** X12. The check passes every name made of a stem without ['/'] that
    holds a character other than ['.'], followed by one of the accepted
    extensions in any letter case. *)
Theorem stem_with_valid_extension_passes (stem ext : string)
  (dims : option (Z * Z)) :
  In (Py.lower ext) valid_exts ->
  Py.has_char "/" stem = false ->
  (exists i c, get i stem = Some c /\ c <> "."%char) ->
  validate_image_file_exstention {| name := stem ++ ext; size := dims |}
  = Ok tt.
Proof.
  intros He Hs (i & c & Hg & Hc).
  rewrite extension_check_outcomes. cbn [name].
  rewrite <- splitext_lower, lower_app, splitext_stem_ext.
  - apply in_exts_In in He. now rewrite He.
  - exact He.
  - now rewrite has_char_lower_sep.
  - exists i, (Py.lower_char c). split.
    + rewrite get_lower, Hg. reflexivity.
    + intros E.
      pose proof (lower_char_extsep c) as L.
      rewrite E, Ascii.eqb_refl in L. symmetry in L.
      apply Ascii.eqb_eq in L. now apply Hc.
Qed.

End accepted_names.

(** ** Examples of the further properties *)

Section further_examples.
Import models orm serializer views views.ServerListViewSet fixtures.

Lemma validation_error_source_witness :
  is_authenticated (user (as_user 1 [("by_serverid", "abc")])) = true /\
  exists value,
    get "by_serverid" (query_params (as_user 1 [("by_serverid", "abc")]))
    = Some value /\
    value <> "" /\
    ((Py.int value = None /\ "Server value error" = "Server value error") \/
     (exists n, Py.int value = Some n /\
                "Server value error"
                = "Server with id " ++ value ++ " not found.")).
Proof.
  exact (validation_error_source Py.int table_order sqlite_limit_refused
           (as_user 1 [("by_serverid", "abc")]) objects
           "Server value error" eq_refl).
Defined.

(** User 1 is a member of the Gaming server Go. *)
Lemma filters_select_witness :
  In (server 3 "Go" gaming [1])
     (map instance
        (filter_member 1
           (all [server 1 "Chess" gaming [1; 2; 3];
                 server 3 "Go" gaming [1];
                 server 4 "Poker" gaming []]))).
Proof.
  apply (proj2 (filters_select
                  (as_user 1 [("category", "Gaming"); ("by_user", "true")])
                  objects
                  (filter_member 1
                     (all [server 1 "Chess" gaming [1; 2; 3];
                           server 3 "Go" gaming [1];
                           server 4 "Poker" gaming []]))
                  eq_refl (server 3 "Go" gaming [1]))).
  split; [simpl; tauto |]. split.
  - intros c [= <-] _. reflexivity.
  - intros _. exists 1. split; [reflexivity | simpl; tauto].
Defined.

Lemma by_serverid_selects_one_witness :
  (List.length (filter_id 3 (all objects)) <= 1)%nat.
Proof.
  apply (proj2 (by_serverid_selects_one Py.int
                  table_order sqlite_limit_refused table_order_permutation
                  (as_user 1 [("by_serverid", "3")]) objects "3" 3
                  (filter_id 3 (all objects))
                  eq_refl ltac:(discriminate) eq_refl eq_refl)).
  simpl. repeat constructor; simpl; intuition discriminate.
Defined.

Lemma annotation_counts_members_witness :
  num_members
    {| instance := server 1 "Chess" gaming [1; 2; 3];
       joined_member := [1; 2; 3];
       num_members := Some 3 |}
  = Some 3.
Proof.
  apply (proj2 (annotation_counts_members Py.int
                  table_order sqlite_limit_refused table_order_permutation
                  (anonymous [("with_num_members", "true")]) objects
                  (annotate_num_members (all objects)) eq_refl)
           eq_refl ltac:(discriminate)
           {| instance := server 1 "Chess" gaming [1; 2; 3];
              joined_member := [1; 2; 3];
              num_members := Some 3 |}).
  simpl. now left.
Defined.

Lemma annotation_after_by_user_witness :
  exists user_id,
    user (as_user 1 [("by_user", "true"); ("with_num_members", "true")])
    = AuthenticatedUser user_id /\
    forall r,
      In r (annotate_num_members (filter_member 1 (all objects))) ->
      In user_id (server_member (instance r)) /\
      num_members r
      = Some (Z.of_nat (List.length (filter (Z.eqb user_id)
                                            (server_member (instance r))))) /\
      (NoDup (server_member (instance r)) -> num_members r = Some 1).
Proof.
  exact (annotation_after_by_user Py.int
           table_order sqlite_limit_refused table_order_permutation
           (as_user 1 [("by_user", "true"); ("with_num_members", "true")])
           objects
           (annotate_num_members (filter_member 1 (all objects)))
           eq_refl eq_refl eq_refl).
Defined.

(** A parameter that is not documented changes nothing. *)
Lemma list_reads_documented_parameters_witness :
  list Py.int table_order sqlite_limit_refused
       (anonymous [("page", "2"); ("qty", "1")]) objects
  = list Py.int table_order sqlite_limit_refused
         (anonymous [("qty", "1")]) objects.
Proof.
  apply (list_reads_documented_parameters Py.int
           table_order sqlite_limit_refused
           (anonymous [("page", "2"); ("qty", "1")])
           (anonymous [("qty", "1")]) objects eq_refl).
  intros p Hp. simpl in Hp.
  destruct Hp as [<- | [<- | [<- | [<- | [<- | []]]]]]; reflexivity.
Defined.

Lemma qty_beyond_size_witness :
  list Py.int table_order sqlite_limit_refused
       (anonymous [("qty", "99")]) objects
  = Ok (map (ServerSerializer false) (all objects)).
Proof.
  apply (proj2 (qty_beyond_size Py.int
                  table_order sqlite_limit_refused table_order_permutation
                  (anonymous [("qty", "99")]) objects
                  "99" 99 (all objects) eq_refl eq_refl
                  ltac:(simpl; lia) eq_refl eq_refl)).
Defined.

(** [by_user=True] and [with_num_members=1] set neither flag: the
    anonymous requester is not asked to authenticate, and no record
    holds [num_members]. *)
Lemma flag_set_only_by_literal_true_witness :
  (list Py.int table_order sqlite_limit_refused
        (anonymous [("by_user", "True"); ("with_num_members", "1")]) objects
   = Raise AuthenticationFailed
   <-> Some "True" = Some "true") /\
  (has_key "num_members"
     (ServerSerializer false
        {| instance := server 1 "Chess" gaming [1; 2; 3];
           joined_member := [1; 2; 3];
           num_members := None |}) = true
   <-> Some "1" = Some "true").
Proof.
  pose proof (flag_set_only_by_literal_true Py.int
                table_order sqlite_limit_refused table_order_permutation
                (anonymous [("by_user", "True"); ("with_num_members", "1")])
                objects) as (B & _ & W).
  split.
  - exact (B eq_refl eq_refl).
  - apply (W _ eq_refl). simpl. now left.
Defined.

Lemma num_members_after_by_user_is_one_witness :
  list Py.int reverse_order sqlite_limit_refused
    {| query_params := [("by_user", "true"); ("with_num_members", "true")];
       user := AuthenticatedUser 1 |}
    [{| server_id := 7; server_name := "Chess";
        server_category := {| category_name := "Gaming" |};
        server_member := [1; 2; 3] |}]
  = Ok [[("id", JInt 7); ("name", JStr "Chess"); ("category", JStr "Gaming");
         ("num_members", JInt 1)]].
Proof.
  exact (num_members_after_by_user_is_one Py.int
           reverse_order sqlite_limit_refused reverse_order_permutation).
Defined.

(** With user 1's three servers listed backwards, every record is a
    server of the base collection. *)
Lemma records_from_base_witness :
  (forall r,
      In r (reverse_order (filter_member 1 (all objects))) ->
      In (instance r) objects) /\
  (List.length (reverse_order (filter_member 1 (all objects)))
   <= List.length objects)%nat.
Proof.
  exact (proj1 (records_from_base Py.int
                  reverse_order sqlite_limit_refused
                  reverse_order_permutation
                  (as_user 1 [("by_user", "true")]) objects)
           (reverse_order (filter_member 1 (all objects))) eq_refl).
Defined.

Lemma accepted_name_shape_witness :
  exists root ext,
    "Icon.PNG" = root ++ ext /\ root <> "" /\
    In (Py.lower ext) validators.valid_exts.
Proof.
  exact (accepted_name_shape
           {| validators.name := "Icon.PNG"; validators.size := None |}
           eq_refl).
Defined.

Lemma stem_with_valid_extension_passes_witness :
  validators.validate_image_file_exstention
    {| validators.name := "my.icon.JPeG"; validators.size := None |}
  = Ok tt.
Proof.
  apply (stem_with_valid_extension_passes "my.icon" ".JPeG" None).
  - simpl. tauto.
  - reflexivity.
  - exists 0%nat, "m"%char. split; [reflexivity | discriminate].
Defined.

End further_examples.
